(** * ecef_to_sez.py: ECEF to South-East-Zenith conversion

    A shallow embedding of [ecef_to_sez.py] and the properties its
    specification states about it.

    Numbers.  A Python [float] is an IEEE-754 binary64 number.  Module
    [Double] embeds the script on [PrimFloat.float], operation for operation:
    [+], [-], [*] and [math.sqrt] round as the hardware does; [**] is
    CPython's [float_pow], which raises [OverflowError] when a finite base
    has an infinite square; [math.atan2], [math.sin] and [math.cos] go
    through CPython's wrappers [math_2] and [math_1] and its own treatment
    of the special cases of [atan2] (signed zeros, infinities, NaN);
    [math.degrees] and [math.radians] are one multiplication each.  The
    functions of the C library behind them ([pow], [atan2], [sin], [cos])
    are a parameter [libm] of the embedding; the theorems assume of it only
    what [libm_ok] lists, and the examples run on [sample_libm], a table of
    the values glibc returns at the arguments they need.

    The file opens with the same source read over the real numbers, the
    data model of the specification ("three real-valued scalars").  Nothing
    rounds or overflows there; that reading carries the properties of the
    script's control flow and of the transform's data flow, which do not
    depend on the arithmetic.

    Effects.  [math.sqrt] and [float()] raise [ValueError], [**] raises
    [OverflowError], [sys.exit] raises [SystemExit], an index out of range
    raises [IndexError]; a computation either returns a value or raises.
    [main] also writes lines to standard output, and a run is recorded as
    the sequence of its events. *)

From Stdlib Require Import Floats Bool.
From Stdlib Require Import Reals Lra Lia ZArith String List.
Import ListNotations.

Set Warnings "-inexact-float".

Local Open Scope R_scope.

(** ** Exceptions *)

Inductive exn : Type :=
| ValueError
| OverflowError
| IndexError
| SystemExit (code : Z).

Inductive result (A : Type) : Type :=
| Ok (a : A)
| Raise (e : exn).

Arguments Ok {A} a.
Arguments Raise {A} e.

Definition ret {A : Type} (a : A) : result A := Ok a.

Definition bind {A B : Type} (c : result A) (k : A -> result B) : result B :=
  match c with
  | Ok a => k a
  | Raise e => Raise e
  end.

Declare Scope exc_scope.
Delimit Scope exc_scope with exc.
Notation "x <- c ;; k" := (bind c (fun x => k))
  (at level 61, c at next level, right associativity) : exc_scope.
Notation "' pat <- c ;; k" := (bind c (fun x => match x with pat => k end))
  (at level 61, pat pattern, c at next level, right associativity) : exc_scope.

(** * The source over the real numbers *)

(** ** The fragment of Python's [math] module the script uses *)

Module math.

(** [math.atan2(y, x)]: the angle of the point [(x, y)], in [(-pi, pi]];
    [math.atan2(0, 0)] is [0]. *)
Definition atan2 (y x : R) : R :=
  if Rlt_dec 0 x then atan (y / x)
  else if Rlt_dec x 0 then
    if Rlt_dec y 0 then atan (y / x) - PI else atan (y / x) + PI
  else if Rlt_dec 0 y then PI / 2
  else if Rlt_dec y 0 then - (PI / 2)
  else 0.

(** [math.sqrt(x)] raises [ValueError] (math domain error) below zero. *)
Definition sqrt (x : R) : result R :=
  if Rlt_dec x 0 then Raise ValueError else Ok (R_sqrt.sqrt x).

(** [math.degrees(x)] is [x * (180 / pi)], [math.radians(x)] is
    [x * (pi / 180)]. *)
Definition degrees (x : R) : R := x * (180 / PI).
Definition radians (x : R) : R := x * (PI / 180).

Definition sin (x : R) : R := Rtrigo_def.sin x.
Definition cos (x : R) : R := Rtrigo_def.cos x.

End math.

(** ** The transform *)

Section Transform.
Local Open Scope exc_scope.

(** Helper function to compute latitude and longitude from ECEF. *)
Definition ecef_to_lat_lon (o_x_km o_y_km o_z_km : R) : result (R * R) :=
  let lon_rad := math.atan2 o_y_km o_x_km in
  hyp <- math.sqrt (o_x_km ^ 2 + o_y_km ^ 2) ;;
  let lat_rad := math.atan2 o_z_km hyp in
  let lat_deg := math.degrees lat_rad in
  let lon_deg := math.degrees lon_rad in
  ret (lat_deg, lon_deg).

(** Helper function: convert ECEF to SEZ. *)
Definition ecef_to_sez (o_x_km o_y_km o_z_km x_km y_km z_km : R)
  : result (R * R * R) :=
  '(lat_deg, lon_deg) <- ecef_to_lat_lon o_x_km o_y_km o_z_km ;;
  let lat_rad := math.radians lat_deg in
  let lon_rad := math.radians lon_deg in
  let dx := x_km - o_x_km in
  let dy := y_km - o_y_km in
  let dz := z_km - o_z_km in
  let sin_lat := math.sin lat_rad in
  let cos_lat := math.cos lat_rad in
  let sin_lon := math.sin lon_rad in
  let cos_lon := math.cos lon_rad in
  let s_km := (- sin_lat) * cos_lon * dx - sin_lat * sin_lon * dy + cos_lat * dz in
  let e_km := (- sin_lon) * dx + cos_lon * dy in
  let z_km := cos_lat * cos_lon * dx + cos_lat * sin_lon * dy + sin_lat * dz in
  ret (s_km, e_km, z_km).

End Transform.

(** ** The spec's rotation *)

(** The ECEF to SEZ rotation as section 4.2 of the specification writes it,
    for a latitude [phi] and a longitude [lam] in radians and an ECEF delta
    [(dx, dy, dz)]. *)
Definition spec_rotation (phi lam dx dy dz : R) : R * R * R :=
  (- sin phi * cos lam * dx
     - sin phi * sin lam * dy
     + cos phi * dz,
   - sin lam * dx + cos lam * dy,
   cos phi * cos lam * dx
     + cos phi * sin lam * dy
     + sin phi * dz).

(** The east component of what [ecef_to_sez] returns. *)
Definition sez_east (r : result (R * R * R)) : result R :=
  match r with
  | Ok (_, e_km, _) => Ok e_km
  | Raise ex => Raise ex
  end.

(** ** The script: standard output, the run's events, and [main] *)

(** A line of standard output: a text, or the [repr] of a float. *)
Inductive line : Type :=
| Text (s : string)
| FloatRepr (v : R).

(** What a run does, in order: a line printed, a call of [float()] on an
    argument, a call of [ecef_to_sez]. *)
Inductive event : Type :=
| Stdout (l : line)
| CallFloat (s : string)
| CallEcefToSez (o_x_km o_y_km o_z_km x_km y_km z_km : R).

Definition trace : Type := list event.

Definition io (A : Type) : Type := trace -> result A * trace.

Definition io_ret {A : Type} (a : A) : io A := fun t => (Ok a, t).

Definition io_bind {A B : Type} (c : io A) (k : A -> io B) : io B :=
  fun t =>
    match c t with
    | (Ok a, t') => k a t'
    | (Raise e, t') => (Raise e, t')
    end.

Definition emit (e : event) : io unit := fun t => (Ok tt, t ++ [e]).

Definition lift {A : Type} (c : result A) : io A := fun t => (c, t).

Declare Scope io_scope.
Delimit Scope io_scope with io.
Notation "x <- c ;; k" := (io_bind c (fun x => k))
  (at level 61, c at next level, right associativity) : io_scope.
Notation "' pat <- c ;; k" := (io_bind c (fun x => match x with pat => k end))
  (at level 61, pat pattern, c at next level, right associativity) : io_scope.
Notation "c ;; k" := (io_bind c (fun _ => k))
  (at level 61, right associativity) : io_scope.

(** [print(s)] of a string and [print(v)] of a float. *)
Definition print_str (s : string) : io unit := emit (Stdout (Text s)).
Definition print_float (v : R) : io unit := emit (Stdout (FloatRepr v)).

(** [sys.exit(code)] raises [SystemExit]. *)
Definition sys_exit {A : Type} (code : Z) : io A := lift (Raise (SystemExit code)).

(** [argv[i]] raises [IndexError] out of range. *)
Definition getitem (argv : list string) (i : nat) : io string :=
  lift (match nth_error argv i with
        | Some s => Ok s
        | None => Raise IndexError
        end).

Definition usage : string :=
  "Usage: python3 ecef_to_sez.py o_x_km o_y_km o_z_km x_km y_km z_km".

Section Script.
Local Open Scope io_scope.

(** The floating-point literals [float()] accepts, with their values:
    [float_literal s] is [None] when [s] is not a valid literal. *)
Variable float_literal : string -> option R.

(** [float(s)] raises [ValueError] on a string that is not a literal. *)
Definition float (s : string) : io R :=
  emit (CallFloat s) ;;
  lift (match float_literal s with
        | Some v => Ok v
        | None => Raise ValueError
        end).

Definition main (argv : list string) : io unit :=
  (if negb (Nat.eqb (length argv) 7) then
     print_str usage ;;
     sys_exit 1
   else io_ret tt) ;;
  a1 <- getitem argv 1 ;; o_x_km <- float a1 ;;
  a2 <- getitem argv 2 ;; o_y_km <- float a2 ;;
  a3 <- getitem argv 3 ;; o_z_km <- float a3 ;;
  a4 <- getitem argv 4 ;; x_km <- float a4 ;;
  a5 <- getitem argv 5 ;; y_km <- float a5 ;;
  a6 <- getitem argv 6 ;; z_km <- float a6 ;;
  emit (CallEcefToSez o_x_km o_y_km o_z_km x_km y_km z_km) ;;
  '(s_km, e_km, z_km) <- lift (ecef_to_sez o_x_km o_y_km o_z_km x_km y_km z_km) ;;
  print_float s_km ;;
  print_float e_km ;;
  print_float z_km.

(** What the operating system and the terminal see of a run. *)
Record outcome : Type := Outcome {
  exit_status : Z;
  stdout : list line;
  traceback : option exn
}.

Definition stdout_of (t : trace) : list line :=
  flat_map (fun e => match e with Stdout l => [l] | _ => [] end) t.

(** The events of running the script with [sys.argv = argv]. *)
Definition run_trace (argv : list string) : trace := snd (main argv []).

(** Running the script: a normal return exits with status 0, [SystemExit]
    with its code and no traceback, any other exception is uncaught: a
    traceback and status 1. *)
Definition run (argv : list string) : outcome :=
  let '(r, t) := main argv [] in
  match r with
  | Ok _ => Outcome 0 (stdout_of t) None
  | Raise (SystemExit code) => Outcome code (stdout_of t) None
  | Raise e => Outcome 1 (stdout_of t) (Some e)
  end.

Definition calls_float (e : event) : bool :=
  match e with CallFloat _ => true | _ => false end.

Definition calls_ecef_to_sez (e : event) : bool :=
  match e with CallEcefToSez _ _ _ _ _ _ => true | _ => false end.

End Script.

(** A reader of unsigned decimal integers, a fragment of the literals
    [float()] accepts; it instantiates [float_literal] in the examples. *)
Definition digit_of_ascii (c : Ascii.ascii) : option Z :=
  let n := Z.of_nat (Ascii.nat_of_ascii c) in
  if andb (48 <=? n)%Z (n <=? 57)%Z then Some (n - 48)%Z else None.

Fixpoint digits_value (s : string) (acc : Z) : option Z :=
  match s with
  | EmptyString => Some acc
  | String c s' =>
      match digit_of_ascii c with
      | Some d => digits_value s' (10 * acc + d)%Z
      | None => None
      end
  end.

Definition digits_literal (s : string) : option R :=
  match s with
  | EmptyString => None
  | _ => option_map IZR (digits_value s 0%Z)
  end.


(** * The source on binary64 numbers *)

Module Double.
Local Open Scope float_scope.
Local Open Scope exc_scope.

(** A Python [float] is an IEEE-754 binary64 number. *)
Definition double : Set := PrimFloat.float.

(** The functions of the C library that CPython calls: their values are the
    platform's. *)
Record libm : Set := Libm {
  c_pow : double -> double -> double;
  c_atan2 : double -> double -> double;
  c_sin : double -> double;
  c_cos : double -> double
}.

(** [Py_MATH_PI], and the two factors of [math.degrees] and
    [math.radians]. *)
Definition pi : double := 3.141592653589793.
Definition radToDeg : double := 180 / pi.
Definition degToRad : double := pi / 180.

(** C's [copysign(a, b)], for a [b] that is not NaN. *)
Definition copysign (a b : double) : double :=
  if get_sign b then - abs a else abs a.

(** [v ** 2], that is [float_pow(v, 2.0)]: the branches of CPython's
    [float_pow] that the exponent 2 reaches.  The C library is asked only
    for a finite base that is neither 0 nor 1 in magnitude, and an infinite
    answer is an [OverflowError]; a square that underflows to zero is
    returned as it is. *)
Definition pow_2 (m : libm) (v : double) : result double :=
  if is_nan v then Ok v
  else if is_infinity v then Ok (abs v)
  else if v =? 0 then Ok 0
  else
    let iv := if v <? 0 then - v else v in
    if iv =? 1 then Ok 1
    else
      let ix := c_pow m iv 2 in
      if is_infinity ix then Raise OverflowError else Ok ix.

(** [math_1]: the wrapper of the one-argument functions of [math].  A NaN
    from an argument that is not NaN is a [ValueError]; an infinity from a
    finite argument is an [OverflowError] or a [ValueError].  The wrapper
    also reads the C library's [errno] after a finite result; [sqrt], [sin]
    and [cos] leave it at zero there, and it is not part of the
    embedding. *)
Definition math_1 (func : double -> double) (can_overflow : bool) (x : double)
  : result double :=
  let r := func x in
  if is_nan r && negb (is_nan x) then Raise ValueError
  else if is_infinity r && is_finite x then
    Raise (if can_overflow then OverflowError else ValueError)
  else Ok r.

(** [m_atan2]: CPython settles the special cases of [atan2] itself, by the
    sign bit of [x]; the C library sees finite arguments with [y] not a
    zero. *)
Definition m_atan2 (m : libm) (y x : double) : double :=
  if is_nan x || is_nan y then nan
  else if is_infinity y then
    if is_infinity x then
      if copysign 1 x =? 1 then copysign (0.25 * pi) y
      else copysign (0.75 * pi) y
    else copysign (0.5 * pi) y
  else if is_infinity x || (y =? 0) then
    if copysign 1 x =? 1 then copysign 0 y
    else copysign pi y
  else c_atan2 m y x.

(** [math_2]: the wrapper of the two-argument functions of [math]. *)
Definition math_2 (func : double -> double -> double) (x y : double)
  : result double :=
  let r := func x y in
  if is_nan r then
    if negb (is_nan x) && negb (is_nan y) then Raise ValueError else Ok r
  else if is_infinity r then
    if is_finite x && is_finite y then Raise OverflowError else Ok r
  else Ok r.

Module math.
Definition atan2 (m : libm) (y x : double) : result double :=
  math_2 (m_atan2 m) y x.
Definition sqrt (x : double) : result double := math_1 PrimFloat.sqrt false x.
Definition sin (m : libm) (x : double) : result double := math_1 (c_sin m) false x.
Definition cos (m : libm) (x : double) : result double := math_1 (c_cos m) false x.
Definition degrees (x : double) : double := x * radToDeg.
Definition radians (x : double) : double := x * degToRad.
End math.

(** Helper function to compute latitude and longitude from ECEF. *)
Definition ecef_to_lat_lon (m : libm) (o_x_km o_y_km o_z_km : double)
  : result (double * double) :=
  lon_rad <- math.atan2 m o_y_km o_x_km ;;
  x2 <- pow_2 m o_x_km ;;
  y2 <- pow_2 m o_y_km ;;
  hyp <- math.sqrt (x2 + y2) ;;
  lat_rad <- math.atan2 m o_z_km hyp ;;
  let lat_deg := math.degrees lat_rad in
  let lon_deg := math.degrees lon_rad in
  ret (lat_deg, lon_deg).

(** Helper function: convert ECEF to SEZ. *)
Definition ecef_to_sez (m : libm) (o_x_km o_y_km o_z_km x_km y_km z_km : double)
  : result (double * double * double) :=
  '(lat_deg, lon_deg) <- ecef_to_lat_lon m o_x_km o_y_km o_z_km ;;
  let lat_rad := math.radians lat_deg in
  let lon_rad := math.radians lon_deg in
  let dx := x_km - o_x_km in
  let dy := y_km - o_y_km in
  let dz := z_km - o_z_km in
  sin_lat <- math.sin m lat_rad ;;
  cos_lat <- math.cos m lat_rad ;;
  sin_lon <- math.sin m lon_rad ;;
  cos_lon <- math.cos m lon_rad ;;
  let s_km := (- sin_lat) * cos_lon * dx - sin_lat * sin_lon * dy + cos_lat * dz in
  let e_km := (- sin_lon) * dx + cos_lon * dy in
  let z_km := cos_lat * cos_lon * dx + cos_lat * sin_lon * dy + sin_lat * dz in
  ret (s_km, e_km, z_km).

(** The rotation of section 4.2 of the specification, evaluated in double
    arithmetic in the order the source writes it, with the C library's
    [sin] and [cos]. *)
Definition rotation (m : libm) (phi lam dx dy dz : double)
  : double * double * double :=
  let sin_lat := c_sin m phi in
  let cos_lat := c_cos m phi in
  let sin_lon := c_sin m lam in
  let cos_lon := c_cos m lam in
  ((- sin_lat) * cos_lon * dx - sin_lat * sin_lon * dy + cos_lat * dz,
   (- sin_lon) * dx + cos_lon * dy,
   cos_lat * cos_lon * dx + cos_lat * sin_lon * dy + sin_lat * dz).

(** The east component of what [ecef_to_sez] returns. *)
Definition sez_east (r : result (double * double * double)) : result double :=
  match r with
  | Ok (_, e_km, _) => Ok e_km
  | Raise ex => Raise ex
  end.

(** ** The fused variant of the design notes *)

(** The first five lines of [ecef_to_lat_lon]: the observer's angles in
    radians. *)
Definition observer_angles (m : libm) (o_x_km o_y_km o_z_km : double)
  : result (double * double) :=
  lon_rad <- math.atan2 m o_y_km o_x_km ;;
  x2 <- pow_2 m o_x_km ;;
  y2 <- pow_2 m o_y_km ;;
  hyp <- math.sqrt (x2 + y2) ;;
  lat_rad <- math.atan2 m o_z_km hyp ;;
  ret (lat_rad, lon_rad).

(** The last lines of [ecef_to_sez]: sines, cosines and the three sums. *)
Definition rotate (m : libm) (lat_rad lon_rad dx dy dz : double)
  : result (double * double * double) :=
  sin_lat <- math.sin m lat_rad ;;
  cos_lat <- math.cos m lat_rad ;;
  sin_lon <- math.sin m lon_rad ;;
  cos_lon <- math.cos m lon_rad ;;
  let s_km := (- sin_lat) * cos_lon * dx - sin_lat * sin_lon * dy + cos_lat * dz in
  let e_km := (- sin_lon) * dx + cos_lon * dy in
  let z_km := cos_lat * cos_lon * dx + cos_lat * sin_lon * dy + sin_lat * dz in
  ret (s_km, e_km, z_km).

(** The variant the design notes allow: the same calls, with the angles
    never converted to degrees and back. *)
Definition ecef_to_sez_fused (m : libm) (o_x_km o_y_km o_z_km x_km y_km z_km : double)
  : result (double * double * double) :=
  '(lat_rad, lon_rad) <- observer_angles m o_x_km o_y_km o_z_km ;;
  rotate m lat_rad lon_rad (x_km - o_x_km) (y_km - o_y_km) (z_km - o_z_km).

(** ** Magnitudes and signs of binary64 numbers *)

(** A zero, or a finite number below [2 ^ K] in magnitude. *)
Definition mag_le (K : Z) (x : spec_float) : Prop :=
  match x with
  | S754_zero _ => True
  | S754_finite _ m e => (Zpos (digits2_pos m) + e <= K)%Z
  | _ => False
  end.

(** A number that is not NaN and has the sign [s]. *)
Definition has_sign (s : bool) (x : spec_float) : Prop :=
  match x with
  | S754_zero s' | S754_finite s' _ _ | S754_infinity s' => s' = s
  | S754_nan => False
  end.

(** Not below zero: NaN, a zero of either sign, or a positive number. *)
Definition not_neg (x : spec_float) : Prop :=
  match x with
  | S754_finite true _ _ | S754_infinity true => False
  | _ => True
  end.

Definition is_zero_SF (x : spec_float) : Prop := exists s, x = S754_zero s.

Definition below (K : Z) (x : double) : Prop := mag_le K (Prim2SF x).

(** An angle: NaN, or a number of magnitude at most 4. *)
Definition angle (a : double) : Prop := is_nan a = true \/ below 3 a.

(** ** What the theorems assume of the C library *)

(** The square of a number is not below zero and is not NaN; [atan2] stays
    within [[-pi, pi]]; [sin] and [cos] stay within [[-1, 1]].  Nothing is
    assumed of their accuracy. *)
Record libm_ok (m : libm) : Prop := {
  pow_2_not_neg : forall a,
    is_nan a = false ->
    (c_pow m a 2 <? 0) = false /\ is_nan (c_pow m a 2) = false;
  atan2_bound : forall y x,
    is_nan y = false -> is_nan x = false -> (abs (c_atan2 m y x) <=? 4) = true;
  sin_bound : forall x, is_finite x = true -> (abs (c_sin m x) <=? 1) = true;
  cos_bound : forall x, is_finite x = true -> (abs (c_cos m x) <=? 1) = true
}.

(** ** The script *)

(** A line of standard output: a text, or the [repr] of a float. *)
Inductive line : Type :=
| Text (s : string)
| FloatRepr (v : double).

(** What a run does, in order: a line printed, a call of [float()] on an
    argument, the call of [ecef_to_sez]. *)
Inductive event : Type :=
| Stdout (l : line)
| CallFloat (s : string)
| CallEcefToSez (o_x_km o_y_km o_z_km x_km y_km z_km : double).

Definition trace : Type := list event.

Definition io (A : Type) : Type := trace -> result A * trace.

Definition io_ret {A : Type} (a : A) : io A := fun t => (Ok a, t).

Definition io_bind {A B : Type} (c : io A) (k : A -> io B) : io B :=
  fun t =>
    match c t with
    | (Ok a, t') => k a t'
    | (Raise e, t') => (Raise e, t')
    end.

Definition emit (e : event) : io unit := fun t => (Ok tt, app t [e]).

Definition lift {A : Type} (c : result A) : io A := fun t => (c, t).

Declare Scope dio_scope.
Delimit Scope dio_scope with dio.
Notation "x <- c ;; k" := (io_bind c (fun x => k))
  (at level 61, c at next level, right associativity) : dio_scope.
Notation "' pat <- c ;; k" := (io_bind c (fun x => match x with pat => k end))
  (at level 61, pat pattern, c at next level, right associativity) : dio_scope.
Notation "c ;; k" := (io_bind c (fun _ => k))
  (at level 61, right associativity) : dio_scope.

Definition print_str (s : string) : io unit := emit (Stdout (Text s)).
Definition print_float (v : double) : io unit := emit (Stdout (FloatRepr v)).

Definition sys_exit {A : Type} (code : Z) : io A := lift (Raise (SystemExit code)).

Definition getitem (argv : list string) (i : nat) : io string :=
  lift (match nth_error argv i with
        | Some s => Ok s
        | None => Raise IndexError
        end).

Definition usage : string :=
  "Usage: python3 ecef_to_sez.py o_x_km o_y_km o_z_km x_km y_km z_km".

Section Script.
Local Open Scope dio_scope.
Variable m : libm.

(** The floating-point literals [float()] accepts, with their values,
    infinities and NaN among them. *)
Variable float_literal : string -> option double.

(** [float(s)] raises [ValueError] on a string that is not a literal. *)
Definition float (s : string) : io double :=
  emit (CallFloat s) ;;
  lift (match float_literal s with
        | Some v => Ok v
        | None => Raise ValueError
        end).

Definition main (argv : list string) : io unit :=
  (if negb (Nat.eqb (length argv) 7) then
     print_str usage ;;
     sys_exit 1
   else io_ret tt) ;;
  a1 <- getitem argv 1 ;; o_x_km <- float a1 ;;
  a2 <- getitem argv 2 ;; o_y_km <- float a2 ;;
  a3 <- getitem argv 3 ;; o_z_km <- float a3 ;;
  a4 <- getitem argv 4 ;; x_km <- float a4 ;;
  a5 <- getitem argv 5 ;; y_km <- float a5 ;;
  a6 <- getitem argv 6 ;; z_km <- float a6 ;;
  emit (CallEcefToSez o_x_km o_y_km o_z_km x_km y_km z_km) ;;
  '(s_km, e_km, z_km) <- lift (ecef_to_sez m o_x_km o_y_km o_z_km x_km y_km z_km) ;;
  print_float s_km ;;
  print_float e_km ;;
  print_float z_km.

(** What the operating system and the terminal see of a run. *)
Record outcome : Type := Outcome {
  exit_status : Z;
  stdout : list line;
  traceback : option exn
}.

Definition stdout_of (t : trace) : list line :=
  flat_map (fun e => match e with Stdout l => [l] | _ => [] end) t.

(** The events of running the script with [sys.argv = argv]. *)
Definition run_trace (argv : list string) : trace := snd (main argv []).

(** Running the script: a normal return exits with status 0, [SystemExit]
    with its code, any other exception with status 1 and a traceback. *)
Definition run (argv : list string) : outcome :=
  let '(r, t) := main argv [] in
  match r with
  | Ok _ => Outcome 0 (stdout_of t) None
  | Raise (SystemExit code) => Outcome code (stdout_of t) None
  | Raise e => Outcome 1 (stdout_of t) (Some e)
  end.

Definition calls_ecef_to_sez (e : event) : bool :=
  match e with CallEcefToSez _ _ _ _ _ _ => true | _ => false end.

End Script.

(** ** A stand-in for the platform's C library *)

Fixpoint lookup (t : list (double * double)) (x : double) : double :=
  match t with
  | [] => 0
  | (a, v) :: t' => if Leibniz.eqb a x then v else lookup t' x
  end.

Fixpoint lookup2 (t : list (double * double * double)) (y x : double) : double :=
  match t with
  | [] => 0
  | (a, b, v) :: t' =>
      if Leibniz.eqb a y && Leibniz.eqb b x then v else lookup2 t' y x
  end.

(** glibc's [atan2(y, x)] at the pairs the examples reach. *)
Definition atan2_table : list (double * double * double) :=
  [ (2, 1, 1.1071487177940904);
    (3, 2.23606797749979, 0.9302740141154721);
    (4, 3, 0.9272952180016122);
    (5, 0, 1.5707963267948966);
    (4e-200, 0, 1.5707963267948966) ].

(** glibc's [sin] and [cos] at the angles the examples reach. *)
Definition sin_table : list (double * double) :=
  [ (0, 0);
    (0.9302740141154722, 0.8017837257372732);
    (0.9302740141154721, 0.8017837257372732);
    (1.1071487177940904, 0.8944271909999159);
    (0.9272952180016122, 0.7999999999999999);
    (1.5707963267948966, 1);
    (3.141592653589793, 1.2246467991473532e-16) ].

Definition cos_table : list (double * double) :=
  [ (0, 1);
    (0.9302740141154722, 0.5976143046671967);
    (0.9302740141154721, 0.5976143046671968);
    (1.1071487177940904, 0.44721359549995804);
    (0.9272952180016122, 0.6000000000000001);
    (1.5707963267948966, 6.123233995736766e-17);
    (3.141592653589793, -1) ].

(** The tables as a C library; a square is the rounded product, which is
    what [pow] returns at the bases the examples use. *)
Definition sample_libm : libm :=
  {| c_pow := fun a b => if b =? 2 then a * a else nan;
     c_atan2 := lookup2 atan2_table;
     c_sin := lookup sin_table;
     c_cos := lookup cos_table |}.

(** Unsigned decimal integers as doubles: a fragment of what [float()]
    reads, for the examples. *)
Definition digit_double (c : Ascii.ascii) : option double :=
  let n := Ascii.nat_of_ascii c in
  if andb (48 <=? n)%nat (n <=? 57)%nat then
    Some (nth (n - 48) [0; 1; 2; 3; 4; 5; 6; 7; 8; 9] 0)
  else None.

Fixpoint digits_double_value (s : string) (acc : double) : option double :=
  match s with
  | EmptyString => Some acc
  | String c s' =>
      match digit_double c with
      | Some d => digits_double_value s' (acc * 10 + d)
      | None => None
      end
  end.

Definition digits_double (s : string) : option double :=
  match s with
  | EmptyString => None
  | _ => digits_double_value s 0
  end.

End Double.

(** * Properties of the source over the real numbers *)

(** ** The [math] fragment *)

Lemma radians_degrees (x : R) : math.radians (math.degrees x) = x.
Proof.
  unfold math.radians, math.degrees.
  field. apply PI_neq0.
Qed.

Lemma sqrt_returns (x : R) : 0 <= x -> math.sqrt x = Ok (sqrt x).
Proof.
  intros Hx. unfold math.sqrt.
  destruct (Rlt_dec x 0) as [Hneg | _]; [lra | reflexivity].
Qed.

Lemma sum_squares_nonneg (x y : R) : 0 <= x ^ 2 + y ^ 2.
Proof. nra. Qed.



(** ** The transform *)

(** [ecef_to_lat_lon] never raises: the argument of [math.sqrt] is a sum of
    squares. *)
Lemma ecef_to_lat_lon_eq (ox oy oz : R) :
  ecef_to_lat_lon ox oy oz =
  Ok (math.degrees (math.atan2 oz (sqrt (ox ^ 2 + oy ^ 2))),
      math.degrees (math.atan2 oy ox)).
Proof.
  unfold ecef_to_lat_lon.
  rewrite (sqrt_returns _ (sum_squares_nonneg ox oy)).
  reflexivity.
Qed.

(** The degrees that [ecef_to_lat_lon] returns are converted back to the
    radians they came from. *)
Lemma ecef_to_sez_eq (ox oy oz x y z : R) :
  ecef_to_sez ox oy oz x y z =
  Ok (spec_rotation (math.atan2 oz (sqrt (ox ^ 2 + oy ^ 2))) (math.atan2 oy ox)
        (x - ox) (y - oy) (z - oz)).
Proof.
  unfold ecef_to_sez. rewrite ecef_to_lat_lon_eq. cbn [bind].
  rewrite !radians_degrees. reflexivity.
Qed.



(** ** The script *)


Example digits_literal_6378 : digits_literal "6378" = Some 6378.
Proof. reflexivity. Qed.

Example digits_literal_abc : digits_literal "abc" = None.
Proof. reflexivity. Qed.

(** One step through [main]'s parsing: the next call of [float()] either
    returns a value, and the run goes on, or raises, which ends the run and
    leaves the goals about it to computation. *)
Ltac read_literal lit :=
  match goal with
  | |- context [lit ?a] =>
      let E := fresh "E" in
      destruct (lit a) eqn:E; [| repeat split]
  end.

Section Runs.
Variable float_literal : string -> option R.

(** With an argument count other than six, [main] prints the usage line and
    raises [SystemExit(1)]; nothing else has happened by then. *)
Lemma main_usage (argv : list string) :
  length argv <> 7%nat ->
  main float_literal argv [] = (Raise (SystemExit 1), [Stdout (Text usage)]).
Proof.
  intros Hlen. unfold main.
  apply Nat.eqb_neq in Hlen. rewrite Hlen. reflexivity.
Qed.

(** With six literals, [main] reads them in order, calls [ecef_to_sez] once
    and prints south, east and zenith, one per line. *)
Lemma main_success (p a1 a2 a3 a4 a5 a6 : string) (v1 v2 v3 v4 v5 v6 s e u : R) :
  float_literal a1 = Some v1 -> float_literal a2 = Some v2 ->
  float_literal a3 = Some v3 -> float_literal a4 = Some v4 ->
  float_literal a5 = Some v5 -> float_literal a6 = Some v6 ->
  ecef_to_sez v1 v2 v3 v4 v5 v6 = Ok (s, e, u) ->
  main float_literal [p; a1; a2; a3; a4; a5; a6] [] =
  (Ok tt,
   [CallFloat a1; CallFloat a2; CallFloat a3;
    CallFloat a4; CallFloat a5; CallFloat a6;
    CallEcefToSez v1 v2 v3 v4 v5 v6;
    Stdout (FloatRepr s); Stdout (FloatRepr e); Stdout (FloatRepr u)]).
Proof.
  intros H1 H2 H3 H4 H5 H6 Ht.
  unfold main, io_bind, float, getitem, lift, emit, print_float, io_ret. cbn.
  rewrite H1, H2, H3, H4, H5, H6, Ht. reflexivity.
Qed.


(** C6: when the number of positional arguments is not six
    ([len(sys.argv) != 7]), the script prints the usage message to standard
    output and exits with status 1, and the run has called neither
    [float()] nor [ecef_to_sez]. *)
Theorem run_wrong_argument_count (argv : list string) :
  length argv <> 7%nat ->
  run float_literal argv = Outcome 1 [Text usage] None /\
  run_trace float_literal argv = [Stdout (Text usage)] /\
  existsb calls_float (run_trace float_literal argv) = false /\
  existsb calls_ecef_to_sez (run_trace float_literal argv) = false.
Proof.
  intros Hlen. unfold run, run_trace.
  rewrite (main_usage argv Hlen). repeat split.
Qed.

(** C7: with six positional arguments of which one is not a floating-point
    literal, the script ends with an uncaught [ValueError]: exit status 1, a
    traceback, nothing on standard output, and [ecef_to_sez] never
    called. *)
Theorem run_invalid_literal (argv : list string) :
  length argv = 7%nat ->
  (exists i s, (1 <= i <= 6)%nat /\
               nth_error argv i = Some s /\ float_literal s = None) ->
  exit_status (run float_literal argv) = 1%Z /\
  traceback (run float_literal argv) = Some ValueError /\
  stdout (run float_literal argv) = [] /\
  existsb calls_ecef_to_sez (run_trace float_literal argv) = false.
Proof.
  intros Hlen (i & s & Hi & Hnth & Hbad).
  destruct argv as [| p [| a1 [| a2 [| a3 [| a4 [| a5 [| a6 [| extra rest]]]]]]]];
    try discriminate Hlen.
  unfold run, run_trace, main, io_bind, float, getitem, lift, emit. cbn.
  do 6 read_literal float_literal.
  exfalso.
  destruct i as [| [| [| [| [| [| [| i]]]]]]]; try lia;
    cbn in Hnth; injection Hnth as <-; congruence.
Qed.

End Runs.


Lemma run_wrong_argument_count_witness :
  let argv := ["ecef_to_sez.py"; "6378"; "0"; "0"]%string in
  run digits_literal argv = Outcome 1 [Text usage] None /\
  run_trace digits_literal argv = [Stdout (Text usage)] /\
  existsb calls_float (run_trace digits_literal argv) = false /\
  existsb calls_ecef_to_sez (run_trace digits_literal argv) = false.
Proof.
  apply (run_wrong_argument_count digits_literal). cbn. lia.
Defined.

(** Seven positional arguments are one too many. *)
Example run_seven_arguments :
  run digits_literal ["ecef_to_sez.py"; "1"; "2"; "3"; "4"; "5"; "6"; "7"]%string =
  Outcome 1 [Text usage] None.
Proof. reflexivity. Qed.

Lemma run_invalid_literal_witness :
  let argv := ["ecef_to_sez.py"; "6378"; "0"; "abc"; "6378"; "0"; "1"]%string in
  exit_status (run digits_literal argv) = 1%Z /\
  traceback (run digits_literal argv) = Some ValueError /\
  stdout (run digits_literal argv) = [] /\
  existsb calls_ecef_to_sez (run_trace digits_literal argv) = false.
Proof.
  apply (run_invalid_literal digits_literal).
  - reflexivity.
  - exists 3%nat, "abc"%string. repeat split; cbn; lia.
Defined.

(** ** The observer's angles *)





(** ** The shapes of a run *)

(** A [sys.argv] of length seven, element by element. *)
Ltac seven argv Hlen :=
  destruct argv as [| ?p [| ?a1 [| ?a2 [| ?a3 [| ?a4 [| ?a5 [| ?a6 [| ? ?]]]]]]]];
  try discriminate Hlen.

(** A run that stopped in [float()]: one of the six arguments is invalid,
    the outcome and the events are computed after unfolding [main]. *)
Ltac parse_error_run :=
  split;
  [ repeat (first [apply Exists_cons_hd; assumption | apply Exists_cons_tl])
  | unfold run, run_trace, main, io_bind, float, getitem, lift, emit; cbn;
    repeat match goal with
      | E : _ = _ :> option R |- _ => rewrite E; clear E
      end;
    split; reflexivity ].

Lemma ecef_to_sez_returns (ox oy oz x y z : R) :
  exists s e u, ecef_to_sez ox oy oz x y z = Ok (s, e, u).
Proof.
  rewrite ecef_to_sez_eq.
  destruct (spec_rotation _ _ _ _ _) as [[s e] u]. now exists s, e, u.
Qed.

Section RunShapes.
Variable float_literal : string -> option R.

Lemma run_usage (argv : list string) :
  length argv <> 7%nat ->
  run float_literal argv = Outcome 1 [Text usage] None /\
  run_trace float_literal argv = [Stdout (Text usage)].
Proof.
  intros Hlen. unfold run, run_trace.
  rewrite (main_usage float_literal argv Hlen). split; reflexivity.
Qed.

(** On seven strings a run takes one of two shapes: all six arguments are
    literals and three floats are printed, or one is not and the run ends in
    [ValueError] with nothing printed and [ecef_to_sez] not called. *)
Lemma run_seven_cases (p a1 a2 a3 a4 a5 a6 : string) :
  (Forall (fun a => float_literal a <> None) [a1; a2; a3; a4; a5; a6] /\
   (exists s e u,
      run float_literal [p; a1; a2; a3; a4; a5; a6] =
      Outcome 0 [FloatRepr s; FloatRepr e; FloatRepr u] None) /\
   existsb calls_ecef_to_sez (run_trace float_literal [p; a1; a2; a3; a4; a5; a6])
   = true) \/
  (Exists (fun a => float_literal a = None) [a1; a2; a3; a4; a5; a6] /\
   run float_literal [p; a1; a2; a3; a4; a5; a6] = Outcome 1 [] (Some ValueError) /\
   existsb calls_ecef_to_sez (run_trace float_literal [p; a1; a2; a3; a4; a5; a6])
   = false).
Proof.
  destruct (float_literal a1) as [v1 |] eqn:E1;
  [destruct (float_literal a2) as [v2 |] eqn:E2;
   [destruct (float_literal a3) as [v3 |] eqn:E3;
    [destruct (float_literal a4) as [v4 |] eqn:E4;
     [destruct (float_literal a5) as [v5 |] eqn:E5;
      [destruct (float_literal a6) as [v6 |] eqn:E6 |] |] |] |] |].
  2-7: right; parse_error_run.
  left. split; [repeat constructor; congruence |].
  destruct (ecef_to_sez_returns v1 v2 v3 v4 v5 v6) as (s & e & u & Ht).
  unfold run, run_trace.
  rewrite (main_success float_literal p _ _ _ _ _ _ _ _ _ _ _ _ _ _ _
             E1 E2 E3 E4 E5 E6 Ht).
  split; [now exists s, e, u | reflexivity].
Qed.

(** X17: the usage line is the whole standard output exactly when the
    number of positional arguments is not six. *)
Theorem run_usage_iff (argv : list string) :
  stdout (run float_literal argv) = [Text usage] <-> length argv <> 7%nat.
Proof.
  destruct (Nat.eq_dec (length argv) 7) as [Hlen | Hlen].
  - seven argv Hlen.
    destruct (run_seven_cases p a1 a2 a3 a4 a5 a6)
      as [(Hall & (s & e & u & ->) & _) | (Hsome & -> & _)]; cbn;
      (split; [discriminate | intros H; exfalso; apply H; reflexivity]).
  - destruct (run_usage argv Hlen) as (-> & _). cbn.
    split; [intros _; exact Hlen | reflexivity].
Qed.

(** X19: the arguments are converted left to right and the run stops at the
    first one that is not a literal: the run's events are the calls of
    [float()] on the arguments up to and including that one, and nothing
    else. *)
Theorem run_stops_at_first_invalid (p bad : string) (good rest : list string) :
  length (p :: good ++ bad :: rest) = 7%nat ->
  Forall (fun a => float_literal a <> None) good ->
  float_literal bad = None ->
  run_trace float_literal (p :: good ++ bad :: rest) = map CallFloat (good ++ [bad]).
Proof.
  intros Hlen Hgood Hbad.
  destruct good as [| g1 [| g2 [| g3 [| g4 [| g5 [| g6 good]]]]]];
    [| | | | | | cbn in Hlen; rewrite length_app in Hlen; cbn in Hlen; lia].
  all: repeat match goal with
         | H : Forall _ (_ :: _) |- _ => inversion_clear H
         end.
  all: repeat match goal with
         | H : float_literal ?g <> None |- _ =>
             destruct (float_literal g) eqn:?; [clear H | contradiction]
         end.
  all: destruct rest as [| ? [| ? [| ? [| ? [| ? [| ? ?]]]]]];
    try discriminate Hlen.
  all: unfold run_trace, main, io_bind, float, getitem, lift, emit; cbn.
  all: repeat match goal with
         | E : float_literal _ = _ |- _ => rewrite E; clear E
         end.
  all: reflexivity.
Qed.

End RunShapes.

Lemma run_stops_at_first_invalid_witness :
  run_trace digits_literal
    ("ecef_to_sez.py"%string
       :: app ["1"; "2"]%string ("x"%string :: ["4"; "5"; "6"]%string))
  = map CallFloat (app ["1"; "2"]%string ["x"%string]).
Proof.
  apply (run_stops_at_first_invalid digits_literal).
  - reflexivity.
  - repeat constructor; discriminate.
  - reflexivity.
Defined.

(** * Properties of the source on binary64 numbers *)

Import Double.

(** From here on [ecef_to_sez], [main], [run] and the other names of the
    script are those of Module [Double]. *)

Section Rounding.
Local Open Scope Z_scope.

(** ** Binary digits *)

Lemma digits2_pos_log2 (p : positive) :
  Zpos (digits2_pos p) = Z.log2 (Zpos p) + 1.
Proof.
  destruct p as [p | p |]; cbn; try reflexivity.
  - induction p as [p IH | p IH |]; cbn in *; lia.
  - induction p as [p IH | p IH |]; cbn in *; lia.
Qed.

Lemma Zdigits2_nonneg (m : Z) : 0 <= Zdigits2 m.
Proof. destruct m; cbn; lia. Qed.

Lemma Zdigits2_pos_log2 (m : Z) : 0 < m -> Zdigits2 m = Z.log2 m + 1.
Proof.
  destruct m as [| p | p]; try lia. intros _. apply digits2_pos_log2.
Qed.

Lemma Zdigits2_le (a b : Z) : 0 <= a <= b -> Zdigits2 a <= Zdigits2 b.
Proof.
  intros [Ha Hab].
  destruct (Z.eq_dec a 0) as [-> | Hnz]; [apply Zdigits2_nonneg |].
  rewrite !Zdigits2_pos_log2 by lia.
  apply Z.add_le_mono_r, Z.log2_le_mono. exact Hab.
Qed.

Lemma Zdigits2_succ (a : Z) : 0 <= a -> Zdigits2 (a + 1) <= Zdigits2 a + 1.
Proof.
  intros Ha.
  destruct (Z.eq_dec a 0) as [-> | Hnz]; [cbn; lia |].
  rewrite !Zdigits2_pos_log2 by lia.
  pose proof (Z.log2_succ_le a). unfold Z.succ in *. lia.
Qed.

Lemma Zdigits2_mul (a b : positive) :
  Zdigits2 (Zpos (a * b)) <= Zdigits2 (Zpos a) + Zdigits2 (Zpos b).
Proof.
  rewrite !Zdigits2_pos_log2 by lia.
  rewrite Pos2Z.inj_mul.
  pose proof (Z.log2_mul_above (Zpos a) (Zpos b)). lia.
Qed.

Lemma Zdigits2_shiftr (m n : Z) :
  0 <= m -> 0 <= n -> Zdigits2 (Z.shiftr m n) <= Z.max 0 (Zdigits2 m - n).
Proof.
  intros Hm Hn.
  destruct (Z.eq_dec m 0) as [-> | Hnz].
  { rewrite Z.shiftr_0_l. cbn. lia. }
  destruct (Z.eq_dec (Z.shiftr m n) 0) as [-> | Hs]; [cbn; lia |].
  assert (0 <= Z.shiftr m n) by (apply Z.shiftr_nonneg; lia).
  assert (n <= Z.log2 m).
  { destruct (Z.lt_ge_cases (Z.log2 m) n) as [Hlt | Hge]; [| exact Hge].
    exfalso. apply Hs. apply Z.shiftr_eq_0; lia. }
  rewrite !Zdigits2_pos_log2 by lia.
  rewrite Z.log2_shiftr by lia. lia.
Qed.

Lemma Zdigits2_shiftl (m n : Z) :
  0 < m -> 0 <= n -> Zdigits2 (Z.shiftl m n) = Zdigits2 m + n.
Proof.
  intros Hm Hn.
  assert (0 < Z.shiftl m n).
  { rewrite Z.shiftl_mul_pow2 by lia.
    apply Z.mul_pos_pos; [lia | apply Z.pow_pos_nonneg; lia]. }
  rewrite !Zdigits2_pos_log2 by lia.
  rewrite Z.log2_shiftl by lia. lia.
Qed.

(** ** Shifting right with the rounding bits *)

Lemma shr_1_m (mrs : shr_record) :
  0 <= shr_m mrs -> shr_m (shr_1 mrs) = Z.shiftr (shr_m mrs) 1.
Proof.
  destruct mrs as [m r s]. cbn [shr_m]. intros Hm.
  rewrite <- Z.div2_spec.
  destruct m as [| [p | p |] | p]; cbn; try reflexivity; lia.
Qed.

Lemma iter_shr_1_m (p : positive) (mrs : shr_record) :
  0 <= shr_m mrs ->
  shr_m (SpecFloat.iter_pos shr_1 p mrs) = Z.shiftr (shr_m mrs) (Zpos p).
Proof.
  revert mrs. induction p as [p IH | p IH |]; intros mrs Hm; cbn [SpecFloat.iter_pos].
  - assert (H1 : 0 <= shr_m (shr_1 mrs))
      by (rewrite shr_1_m by exact Hm; apply Z.shiftr_nonneg; exact Hm).
    assert (H2 : 0 <= shr_m (SpecFloat.iter_pos shr_1 p (shr_1 mrs)))
      by (rewrite IH by exact H1; apply Z.shiftr_nonneg; exact H1).
    rewrite IH by exact H2. rewrite IH by exact H1. rewrite shr_1_m by exact Hm.
    rewrite !Z.shiftr_shiftr by lia. f_equal. lia.
  - assert (H2 : 0 <= shr_m (SpecFloat.iter_pos shr_1 p mrs))
      by (rewrite IH by exact Hm; apply Z.shiftr_nonneg; exact Hm).
    rewrite IH by exact H2. rewrite IH by exact Hm.
    rewrite Z.shiftr_shiftr by lia. f_equal. lia.
  - apply shr_1_m. exact Hm.
Qed.

Lemma shr_record_of_loc_m (m : Z) (l : location) :
  shr_m (shr_record_of_loc m l) = m.
Proof. destruct l as [| []]; reflexivity. Qed.

(** The first component of [shr_fexp]: the mantissa stays non-negative and
    the number of digits plus the exponent does not grow. *)
Lemma shr_fexp_bounds (prec emax m e : Z) (l : location) :
  0 <= m ->
  let '(mrs, e') := shr_fexp prec emax m e l in
  0 <= shr_m mrs /\
  e' = Z.max e (fexp prec emax (Zdigits2 m + e)) /\
  Zdigits2 (shr_m mrs) + e' <= Z.max (Zdigits2 m + e) e'.
Proof.
  intros Hm. unfold shr_fexp, shr.
  pose proof (Zdigits2_nonneg m) as Hd.
  destruct (fexp prec emax (Zdigits2 m + e) - e) as [| n | n] eqn:En.
  - rewrite shr_record_of_loc_m. repeat split; lia.
  - rewrite iter_shr_1_m by (rewrite shr_record_of_loc_m; exact Hm).
    rewrite shr_record_of_loc_m.
    pose proof (Zdigits2_shiftr m (Zpos n) Hm ltac:(lia)).
    repeat split; [apply Z.shiftr_nonneg; exact Hm | lia | lia].
  - rewrite shr_record_of_loc_m. repeat split; lia.
Qed.

Lemma round_nearest_even_bounds (m : Z) (l : location) :
  0 <= m ->
  0 <= round_nearest_even m l /\
  Zdigits2 (round_nearest_even m l) <= Zdigits2 m + 1.
Proof.
  intros Hm. pose proof (Zdigits2_succ m Hm).
  unfold round_nearest_even.
  destruct l as [| []]; try destruct (Z.even m); split; lia.
Qed.

(** ** Rounding to binary64 *)

Lemma fexp_le (t : Z) : fexp prec emax t = Z.max (t - 53) (-1074).
Proof. reflexivity. Qed.

Lemma round_aux_sign (sx : bool) (mx ex : Z) (lx : location) :
  0 <= mx -> has_sign sx (binary_round_aux prec emax sx mx ex lx).
Proof.
  intros Hm. unfold binary_round_aux.
  pose proof (shr_fexp_bounds prec emax mx ex lx Hm) as H1.
  destruct (shr_fexp prec emax mx ex lx) as [mrs' e'].
  destruct H1 as (Hm1 & _ & _).
  destruct (round_nearest_even_bounds (shr_m mrs') (loc_of_shr_record mrs') Hm1)
    as [Hm2 _].
  pose proof (shr_fexp_bounds prec emax _ e' loc_Exact Hm2) as H3.
  destruct (shr_fexp prec emax _ e' loc_Exact) as [mrs'' e''].
  destruct H3 as (Hm3 & _ & _).
  destruct (shr_m mrs'') as [| m | m]; [reflexivity | | lia].
  destruct (e'' <=? emax - prec); reflexivity.
Qed.

Lemma round_aux_mag (K : Z) (sx : bool) (mx ex : Z) (lx : location) :
  0 <= mx -> ex <= 971 -> Zdigits2 mx + ex <= K -> K <= 1023 ->
  mag_le (Z.max K (-1074) + 1) (binary_round_aux prec emax sx mx ex lx).
Proof.
  intros Hm He HK HK'. unfold binary_round_aux.
  pose proof (Zdigits2_nonneg mx) as Hd.
  pose proof (shr_fexp_bounds prec emax mx ex lx Hm) as H1.
  destruct (shr_fexp prec emax mx ex lx) as [mrs' e'].
  destruct H1 as (Hm1 & He1 & Hd1). rewrite fexp_le in He1.
  destruct (round_nearest_even_bounds (shr_m mrs') (loc_of_shr_record mrs') Hm1)
    as [Hm2 Hd2].
  pose proof (Zdigits2_nonneg (shr_m mrs')) as Hd1'.
  pose proof (shr_fexp_bounds prec emax _ e' loc_Exact Hm2) as H3.
  destruct (shr_fexp prec emax _ e' loc_Exact) as [mrs'' e''].
  destruct H3 as (Hm3 & He3 & Hd3). rewrite fexp_le in He3.
  destruct (shr_m mrs'') as [| m | m] eqn:Em; cbn [mag_le]; try exact I; try lia.
  assert (Hle : e'' <= 971) by lia.
  change (emax - prec) with 971.
  destruct (Z.leb_spec e'' 971) as [_ | Hgt]; [| lia].
  cbn [mag_le]. cbn [Zdigits2] in Hd3. lia.
Qed.

(** ** The operations on [spec_float] *)

Lemma SFmul_mag (A B : Z) (x y : spec_float) :
  mag_le A x -> mag_le B y -> A + B <= 973 ->
  mag_le (Z.max (A + B) (-1074) + 1) (SF64mul x y).
Proof.
  intros Hx Hy HAB.
  destruct x as [sx | sx | | sx mx ex], y as [sy | sy | | sy my ey];
    cbn [mag_le] in Hx, Hy; try contradiction; try exact I.
  change (mag_le (Z.max (A + B) (-1074) + 1)
            (binary_round_aux prec emax (xorb sx sy) (Zpos (mx * my)) (ex + ey)
               loc_Exact)).
  pose proof (Zdigits2_mul mx my). cbn [Zdigits2] in *.
  apply round_aux_mag; cbn [Zdigits2]; lia.
Qed.

Lemma SFmul_zero_r (x y : spec_float) (K : Z) :
  mag_le K x -> (exists s, y = S754_zero s) -> exists s, SF64mul x y = S754_zero s.
Proof.
  intros Hx [s ->].
  destruct x as [sx | sx | | sx mx ex]; cbn [mag_le] in Hx; try contradiction;
    cbn; eauto.
Qed.

Lemma SFmul_zero_l (x y : spec_float) (K : Z) :
  mag_le K y -> (exists s, x = S754_zero s) -> exists s, SF64mul x y = S754_zero s.
Proof.
  intros Hy [s ->].
  destruct y as [sy | sy | | sy my ey]; cbn [mag_le] in Hy; try contradiction;
    cbn; eauto.
Qed.

Lemma SFadd_zero (x y : spec_float) :
  (exists s, x = S754_zero s) -> (exists s, y = S754_zero s) ->
  exists s, SF64add x y = S754_zero s.
Proof. intros [[] ->] [[] ->]; cbn; eauto. Qed.

Lemma SFsub_zero (x y : spec_float) :
  (exists s, x = S754_zero s) -> (exists s, y = S754_zero s) ->
  exists s, SF64sub x y = S754_zero s.
Proof. intros [[] ->] [[] ->]; cbn; eauto. Qed.

Lemma SFsub_self (x : spec_float) (K : Z) :
  mag_le K x -> SF64sub x x = S754_zero false.
Proof.
  destruct x as [[] | sx | | sx mx ex]; cbn; try contradiction; try reflexivity.
  intros _. rewrite Z.sub_diag. reflexivity.
Qed.

Lemma has_sign_not_neg (x : spec_float) : has_sign false x -> not_neg x.
Proof. destruct x as [s | s | | s m e]; cbn; intros H; subst; exact I || contradiction. Qed.

Lemma SFadd_not_neg (x y : spec_float) :
  not_neg x -> not_neg y -> not_neg (SF64add x y).
Proof.
  intros Hx Hy.
  destruct x as [[] | [] | | [] mx ex], y as [[] | [] | | [] my ey];
    cbn [not_neg] in Hx, Hy; try contradiction;
    unfold SF64add, SFadd; cbv beta iota zeta; try exact I.
  apply has_sign_not_neg.
  unfold binary_normalize, cond_Zopp.
  set (a := fst (shl_align mx ex (Z.min ex ey))).
  set (b := fst (shl_align my ey (Z.min ex ey))).
  destruct (Zpos a + Zpos b) as [| p | p] eqn:E; try lia.
  unfold binary_round.
  destruct (shl_align p _ _) as [mz ez].
  apply round_aux_sign. lia.
Qed.

(** The square root of a valid number that is not below zero is NaN only
    for NaN, and is infinite only for infinity. *)
Lemma SFsqrt_not_neg (x : spec_float) :
  valid_binary x = true -> not_neg x ->
  match SF64sqrt x with
  | S754_nan => x = S754_nan
  | S754_infinity s => x = S754_infinity false
  | _ => True
  end.
Proof.
  intros Hv Hx.
  destruct x as [s | [] | | [] mx ex]; cbn in Hx |- *; try exact I;
    try contradiction; try reflexivity.
  cbn in Hv. unfold bounded, canonical_mantissa in Hv.
  apply andb_prop in Hv as [Hc He].
  apply Z.eqb_eq in Hc. apply Z.leb_le in He.
  rewrite fexp_le in Hc. change (emax - prec) with 971 in He.
  unfold SFsqrt_core_binary.
  set (d := Zdigits2 (Zpos mx)). change (Zpos (digits2_pos mx)) with d in Hc.
  assert (Hd : 1 <= d) by (unfold d; cbn; lia).
  rewrite fexp_le.
  set (e' := Z.min (Z.max (Z.div2 (d + ex + 1) - 53) (-1074)) (Z.div2 ex)).
  pose proof (Z.div2_odd ex) as Hex. pose proof (Z.div2_odd (d + ex + 1)) as Hdex.
  assert (Hb1 : 0 <= Z.b2z (Z.odd ex) <= 1) by (destruct (Z.odd ex); cbn; lia).
  assert (Hb2 : 0 <= Z.b2z (Z.odd (d + ex + 1)) <= 1)
    by (destruct (Z.odd (d + ex + 1)); cbn; lia).
  set (m' := match ex - 2 * e' with
             | 0 => Zpos mx
             | Zpos _ => Z.shiftl (Zpos mx) (ex - 2 * e')
             | Zneg _ => 0
             end).
  assert (Hm' : 0 <= m' /\ Zdigits2 m' <= d + Z.max 0 (ex - 2 * e')).
  { unfold m'. destruct (ex - 2 * e') as [| p | p] eqn:Es.
    - fold d. lia.
    - rewrite Zdigits2_shiftl by lia. fold d. split; [| lia].
      apply Z.shiftl_nonneg. lia.
    - cbn. lia. }
  destruct Hm' as [Hm'0 Hm'd].
  pose proof (Z.sqrtrem_sqrt m') as Hq.
  pose proof (Z.sqrt_nonneg m') as Hq0.
  pose proof (Z.sqrt_le_lin m' Hm'0) as Hqm.
  destruct (Z.sqrtrem m') as [q r]. cbn [fst] in Hq. subst q.
  pose proof (Zdigits2_le (Z.sqrt m') m' (conj Hq0 Hqm)) as Hdq.
  set (l := if r =? 0 then loc_Exact else loc_Inexact (if r <=? Z.sqrt m' then Lt else Gt)).
  assert (Hmag : mag_le (Z.max 1023 (-1074) + 1)
                   (binary_round_aux prec emax false (Z.sqrt m') e' l)).
  { apply round_aux_mag; unfold e' in *; lia. }
  destruct (binary_round_aux prec emax false (Z.sqrt m') e' l);
    cbn in Hmag; try exact I; contradiction.
Qed.

(** ** The predicates of [PrimFloat] read on [spec_float] *)

Lemma SFcompare_refl_finite (s : bool) (m : positive) (e : Z) :
  SFcompare (S754_finite s m e) (S754_finite s m e) = Some Eq.
Proof.
  cbn. rewrite Z.compare_refl, Pos.compare_cont_refl. now destruct s.
Qed.

Lemma is_nan_SF (x : double) :
  is_nan x = match Prim2SF x with S754_nan => true | _ => false end.
Proof.
  unfold is_nan. rewrite FloatAxioms.eqb_spec. unfold SFeqb.
  destruct (Prim2SF x) as [s | [] | | s m e]; try reflexivity.
  now rewrite SFcompare_refl_finite.
Qed.

Lemma is_infinity_SF (x : double) :
  is_infinity x = match Prim2SF x with S754_infinity _ => true | _ => false end.
Proof.
  unfold is_infinity. rewrite FloatAxioms.eqb_spec, abs_spec.
  change (Prim2SF infinity) with (S754_infinity false).
  now destruct (Prim2SF x) as [s | [] | | s m e].
Qed.

Lemma is_finite_SF (x : double) :
  is_finite x = match Prim2SF x with
                | S754_zero _ | S754_finite _ _ _ => true
                | _ => false
                end.
Proof.
  unfold is_finite. rewrite is_nan_SF, is_infinity_SF.
  now destruct (Prim2SF x).
Qed.

Lemma eqb_zero_SF (x : double) :
  (x =? 0)%float = match Prim2SF x with S754_zero _ => true | _ => false end.
Proof.
  rewrite FloatAxioms.eqb_spec. change (Prim2SF 0) with (S754_zero false).
  now destruct (Prim2SF x) as [s | [] | | [] m e].
Qed.

Lemma ltb_zero_SF (x : double) :
  (x <? 0)%float = match Prim2SF x with
                   | S754_finite true _ _ | S754_infinity true => true
                   | _ => false
                   end.
Proof.
  rewrite FloatAxioms.ltb_spec. change (Prim2SF 0) with (S754_zero false).
  now destruct (Prim2SF x) as [s | [] | | [] m e].
Qed.

Lemma ltb_zero_not_neg (x : double) :
  (x <? 0)%float = false <-> not_neg (Prim2SF x).
Proof.
  rewrite ltb_zero_SF.
  destruct (Prim2SF x) as [s | [] | | [] m e]; cbn; intuition congruence.
Qed.

(** ** Magnitudes of doubles *)

Lemma below_finite (K : Z) (x : double) : below K x -> is_finite x = true.
Proof.
  unfold below. rewrite is_finite_SF.
  destruct (Prim2SF x); cbn; intros H; try reflexivity; contradiction.
Qed.

Lemma below_not_nan (K : Z) (x : double) : below K x -> is_nan x = false.
Proof.
  unfold below. rewrite is_nan_SF.
  destruct (Prim2SF x); cbn; intros H; try reflexivity; contradiction.
Qed.

Lemma below_not_infinity (K : Z) (x : double) : below K x -> is_infinity x = false.
Proof.
  unfold below. rewrite is_infinity_SF.
  destruct (Prim2SF x); cbn; intros H; try reflexivity; contradiction.
Qed.

Lemma below_weaken (K K' : Z) (x : double) : K <= K' -> below K x -> below K' x.
Proof.
  unfold below. destruct (Prim2SF x); cbn [mag_le]; intros; try assumption. lia.
Qed.

Lemma below_opp (K : Z) (x : double) : below K x -> below K (- x)%float.
Proof.
  unfold below. rewrite opp_spec. now destruct (Prim2SF x).
Qed.

Lemma below_abs (K : Z) (x : double) : below K x -> below K (abs x).
Proof.
  unfold below. rewrite abs_spec. now destruct (Prim2SF x).
Qed.

Lemma below_mul (A B : Z) (x y : double) :
  below A x -> below B y -> A + B <= 973 ->
  below (Z.max (A + B) (-1074) + 1) (x * y)%float.
Proof.
  unfold below. rewrite mul_spec. apply SFmul_mag.
Qed.

(** A double at most [c] in magnitude, for a positive [c] with exponent
    [E], is below [2 ^ (E + 53)]. *)
Lemma leb_abs_below (c x : double) (M : positive) (E : Z) :
  Prim2SF c = S754_finite false M E ->
  (abs x <=? c)%float = true -> below (E + 53) x.
Proof.
  intros Hc. rewrite FloatAxioms.leb_spec, abs_spec, Hc. unfold below.
  pose proof (Prim2SF_valid x) as Hv.
  destruct (Prim2SF x) as [s | s | | s m e]; cbn [SFabs mag_le];
    try discriminate; try (intros _; exact I).
  unfold SFleb, SFcompare.
  cbn in Hv. unfold bounded, canonical_mantissa in Hv.
  apply andb_prop in Hv as [Hcan _]. apply Z.eqb_eq in Hcan.
  rewrite fexp_le in Hcan.
  destruct (Z.compare_spec e E) as [Heq | Hlt | Hgt]; intros Hle;
    try discriminate; lia.
Qed.

Lemma leb_abs_one (x : double) : (abs x <=? 1)%float = true -> below 1 x.
Proof. apply (leb_abs_below 1%float x 4503599627370496 (-52)). reflexivity. Qed.

Lemma leb_abs_four (x : double) : (abs x <=? 4)%float = true -> below 3 x.
Proof. apply (leb_abs_below 4%float x 4503599627370496 (-50)). reflexivity. Qed.

(** ** Zeros *)

Lemma eqb_zero_iff (x : double) : (x =? 0)%float = true <-> is_zero_SF (Prim2SF x).
Proof.
  rewrite eqb_zero_SF. unfold is_zero_SF.
  destruct (Prim2SF x); split; intros H; try discriminate; try reflexivity;
    eauto; destruct H as [s' H]; discriminate.
Qed.

Lemma sub_self (x : double) : is_finite x = true -> (x - x)%float = 0%float.
Proof.
  intros Hf. apply Prim2SF_inj. rewrite sub_spec.
  change (Prim2SF 0) with (S754_zero false).
  rewrite is_finite_SF in Hf.
  apply (SFsub_self _ 1024).
  pose proof (Prim2SF_valid x) as Hv.
  destruct (Prim2SF x) as [s | s | | s m e]; cbn [mag_le]; try discriminate;
    try exact I.
  cbn in Hv. unfold bounded, canonical_mantissa in Hv.
  apply andb_prop in Hv as [Hcan He]. apply Z.eqb_eq in Hcan.
  apply Z.leb_le in He. rewrite fexp_le in Hcan.
  change (emax - prec) with 971 in He. lia.
Qed.

Lemma mul_zero_r (K : Z) (x y : double) :
  below K x -> (y =? 0)%float = true -> (x * y =? 0)%float = true.
Proof.
  rewrite !eqb_zero_iff, mul_spec. intros Hx Hy.
  exact (SFmul_zero_r _ _ K Hx Hy).
Qed.

Lemma add_zero (x y : double) :
  (x =? 0)%float = true -> (y =? 0)%float = true -> (x + y =? 0)%float = true.
Proof. rewrite !eqb_zero_iff, add_spec. apply SFadd_zero. Qed.

Lemma sub_zero (x y : double) :
  (x =? 0)%float = true -> (y =? 0)%float = true -> (x - y =? 0)%float = true.
Proof. rewrite !eqb_zero_iff, sub_spec. apply SFsub_zero. Qed.

(** ** Sums and square roots of numbers that are not below zero *)

Lemma add_not_neg (x y : double) :
  (x <? 0)%float = false -> (y <? 0)%float = false -> (x + y <? 0)%float = false.
Proof.
  rewrite !ltb_zero_not_neg, add_spec. apply SFadd_not_neg.
Qed.

Lemma sqrt_not_neg (x : double) :
  (x <? 0)%float = false ->
  (is_nan (PrimFloat.sqrt x) = true -> is_nan x = true) /\
  (is_infinity (PrimFloat.sqrt x) = true -> is_finite x = false).
Proof.
  rewrite ltb_zero_not_neg. intros Hx.
  pose proof (SFsqrt_not_neg (Prim2SF x) (Prim2SF_valid x) Hx) as H.
  rewrite !is_nan_SF, !is_infinity_SF, is_finite_SF, sqrt_spec.
  destruct (SF64sqrt (Prim2SF x)); split; intros E; try discriminate;
    rewrite H; reflexivity.
Qed.

End Rounding.

Local Open Scope float_scope.

(** ** The special cases of [atan2] *)

Section Angles.
Variable m : libm.
Hypothesis Hm : libm_ok m.

Lemma copysign_cases (a b : double) : copysign a b = abs a \/ copysign a b = (- abs a).
Proof. unfold copysign. destruct (get_sign b); auto. Qed.

Lemma m_atan2_angle (y x : double) : angle (m_atan2 m y x).
Proof.
  unfold m_atan2.
  destruct (is_nan x || is_nan y) eqn:En; [left; reflexivity |].
  apply orb_false_elim in En as [Enx Eny].
  right.
  repeat match goal with
    | |- context [if ?c then _ else _] => destruct c
    | |- context [copysign ?a ?b] =>
        destruct (copysign_cases a b) as [-> | ->]
    end;
    try (apply leb_abs_four; reflexivity).
  apply leb_abs_four. apply (atan2_bound m Hm); assumption.
Qed.

Lemma m_atan2_not_nan (y x : double) :
  is_nan y = false -> is_nan x = false -> below 3 (m_atan2 m y x).
Proof.
  intros Hy Hx. unfold m_atan2. rewrite Hx, Hy. cbn [orb].
  repeat match goal with
    | |- context [if ?c then _ else _] => destruct c
    | |- context [copysign ?a ?b] =>
        destruct (copysign_cases a b) as [-> | ->]
    end;
    try (apply leb_abs_four; reflexivity).
  apply leb_abs_four. apply (atan2_bound m Hm); assumption.
Qed.

Lemma math_atan2_returns (y x : double) :
  math.atan2 m y x = Ok (m_atan2 m y x).
Proof.
  unfold math.atan2, math_2.
  destruct (m_atan2_angle y x) as [Hn | Hb].
  - rewrite Hn.
    destruct (is_nan y) eqn:Ey; [reflexivity |].
    destruct (is_nan x) eqn:Ex; [reflexivity |].
    pose proof (below_not_nan _ _ (m_atan2_not_nan y x Ey Ex)). congruence.
  - now rewrite (below_not_nan _ _ Hb), (below_not_infinity _ _ Hb).
Qed.
End Angles.

(** ** The observer's angles and the rotation *)

(** An exception of [ecef_to_lat_lon] is an exception of [ecef_to_sez]. *)
Lemma sez_raises_with_lat_lon (m : libm) (ox oy oz x y z : double) (e : exn) :
  ecef_to_lat_lon m ox oy oz = Raise e -> ecef_to_sez m ox oy oz x y z = Raise e.
Proof. intros E. unfold ecef_to_sez. now rewrite E. Qed.

Lemma is_nan_opp (x : double) : is_nan (- x) = is_nan x.
Proof. rewrite !is_nan_SF, opp_spec. now destruct (Prim2SF x). Qed.

Lemma abs_not_neg (x : double) : (abs x <? 0) = false.
Proof. rewrite ltb_zero_SF, abs_spec. now destruct (Prim2SF x). Qed.

Lemma nan_not_neg (x : double) : is_nan x = true -> (x <? 0) = false.
Proof. rewrite is_nan_SF, ltb_zero_SF. now destruct (Prim2SF x) as [| | | [] ]. Qed.

Lemma is_nan_abs (x : double) : is_nan (abs x) = is_nan x.
Proof. rewrite !is_nan_SF, abs_spec. now destruct (Prim2SF x). Qed.

Lemma add_not_nan (x y : double) :
  (x <? 0) = false -> (y <? 0) = false ->
  is_nan x = false -> is_nan y = false -> is_nan (x + y) = false.
Proof.
  rewrite !ltb_zero_SF, !is_nan_SF, add_spec.
  pose proof (SFadd_not_neg (Prim2SF x) (Prim2SF y)) as H.
  destruct (Prim2SF x) as [[] | [] | | [] mx ex], (Prim2SF y) as [[] | [] | | [] my ey];
    intros; try discriminate; try reflexivity.
  unfold SF64add, SFadd. cbv beta iota zeta.
  unfold binary_normalize, cond_Zopp.
  set (a := fst (shl_align mx ex (Z.min ex ey))).
  set (b := fst (shl_align my ey (Z.min ex ey))).
  destruct (Zpos a + Zpos b)%Z as [| p | p] eqn:E; try lia.
  unfold binary_round. destruct (shl_align p _ _) as [mz ez].
  pose proof (round_aux_sign false (Zpos mz) ez loc_Exact ltac:(lia)) as Hs.
  destruct (binary_round_aux _ _ _ _ _ _); cbn in Hs; try reflexivity; contradiction.
Qed.

Section LatLon.
Variable m : libm.
Hypothesis Hm : libm_ok m.

(** [x ** 2] returns a number that is not below zero, NaN only for NaN, or
    raises [OverflowError]. *)
Lemma pow_2_cases (v : double) :
  pow_2 m v = Raise OverflowError \/
  exists a, pow_2 m v = Ok a /\ (a <? 0) = false /\ (is_nan v = false -> is_nan a = false).
Proof.
  unfold pow_2.
  destruct (is_nan v) eqn:En.
  { right. exists v. repeat split; [apply nan_not_neg; exact En | discriminate]. }
  destruct (is_infinity v) eqn:Ei.
  { right. exists (abs v). repeat split; [apply abs_not_neg |].
    intros _. now rewrite is_nan_abs. }
  destruct (v =? 0) eqn:Ez.
  { right. exists 0. repeat split. }
  set (iv := if v <? 0 then - v else v).
  assert (Hiv : is_nan iv = false).
  { unfold iv. destruct (v <? 0); [rewrite is_nan_opp |]; exact En. }
  destruct (iv =? 1).
  { right. exists 1. repeat split. }
  destruct (is_infinity (c_pow m iv 2)); [left; reflexivity |].
  right. exists (c_pow m iv 2).
  destruct (pow_2_not_neg m Hm iv Hiv) as [H1 H2]. repeat split; auto.
Qed.

Lemma math_sqrt_returns (v : double) :
  (v <? 0) = false -> math.sqrt v = Ok (PrimFloat.sqrt v).
Proof.
  intros Hv. destruct (sqrt_not_neg v Hv) as [Hn Hi].
  unfold math.sqrt, math_1.
  assert (H1 : is_nan (PrimFloat.sqrt v) && negb (is_nan v) = false).
  { destruct (is_nan (PrimFloat.sqrt v)); [now rewrite (Hn eq_refl) | reflexivity]. }
  assert (H2 : is_infinity (PrimFloat.sqrt v) && is_finite v = false).
  { destruct (is_infinity (PrimFloat.sqrt v)); [now rewrite (Hi eq_refl) | reflexivity]. }
  now rewrite H1, H2.
Qed.

(** The observer's latitude and longitude: the only error is the
    [OverflowError] of a square. *)
Lemma lat_lon_double_eq (ox oy oz : double) :
  ecef_to_lat_lon m ox oy oz =
  match pow_2 m ox, pow_2 m oy with
  | Ok x2, Ok y2 =>
      Ok (math.degrees (m_atan2 m oz (PrimFloat.sqrt (x2 + y2))),
          math.degrees (m_atan2 m oy ox))
  | _, _ => Raise OverflowError
  end.
Proof.
  unfold ecef_to_lat_lon.
  rewrite (math_atan2_returns m Hm). cbn [bind].
  destruct (pow_2_cases ox) as [-> | (x2 & -> & Hx2 & _)]; [reflexivity |].
  cbn [bind].
  destruct (pow_2_cases oy) as [-> | (y2 & -> & Hy2 & _)]; [reflexivity |].
  cbn [bind].
  rewrite (math_sqrt_returns _ (add_not_neg _ _ Hx2 Hy2)). cbn [bind].
  rewrite (math_atan2_returns m Hm). reflexivity.
Qed.

(** Degrees and back: an angle stays finite. *)
Lemma radians_degrees_below (a : double) :
  below 3 a -> below 6 (math.radians (math.degrees a)).
Proof.
  intros Ha. unfold math.radians, math.degrees.
  assert (Hr : below 6 radToDeg) by (unfold below; cbn; lia).
  assert (Hd : below (-5) degToRad) by (unfold below; cbn; lia).
  pose proof (below_mul 3 6 a radToDeg Ha Hr ltac:(lia)) as H1.
  pose proof (below_mul _ _ _ degToRad H1 Hd ltac:(lia)) as H2.
  eapply below_weaken; [| exact H2]. lia.
Qed.

Lemma is_nan_mul_l (a b : double) : is_nan a = true -> is_nan (a * b) = true.
Proof. rewrite !is_nan_SF, mul_spec. now destruct (Prim2SF a). Qed.

Lemma math_1_nan (f : double -> double) (b : bool) (x : double) :
  is_nan x = true -> math_1 f b x = Ok (f x).
Proof.
  intros Hx. unfold math_1. rewrite Hx.
  assert (is_finite x = false) by (unfold is_finite; now rewrite Hx).
  rewrite H. now rewrite !andb_false_r.
Qed.

Lemma math_1_below (f : double -> double) (b : bool) (x : double) (K : Z) :
  below K (f x) -> math_1 f b x = Ok (f x).
Proof.
  intros Hb. unfold math_1.
  now rewrite (below_not_nan _ _ Hb), (below_not_infinity _ _ Hb).
Qed.

(** [math.sin] and [math.cos] return on an angle that went to degrees and
    back. *)
Lemma math_sin_angle (a : double) :
  angle a -> math.sin m (math.radians (math.degrees a))
             = Ok (c_sin m (math.radians (math.degrees a))).
Proof.
  intros [Hn | Hb].
  - apply math_1_nan. unfold math.radians, math.degrees.
    now apply is_nan_mul_l, is_nan_mul_l.
  - apply (math_1_below _ _ _ 1), leb_abs_one, (sin_bound m Hm).
    exact (below_finite _ _ (radians_degrees_below a Hb)).
Qed.

Lemma math_cos_angle (a : double) :
  angle a -> math.cos m (math.radians (math.degrees a))
             = Ok (c_cos m (math.radians (math.degrees a))).
Proof.
  intros [Hn | Hb].
  - apply math_1_nan. unfold math.radians, math.degrees.
    now apply is_nan_mul_l, is_nan_mul_l.
  - apply (math_1_below _ _ _ 1), leb_abs_one, (cos_bound m Hm).
    exact (below_finite _ _ (radians_degrees_below a Hb)).
Qed.

Lemma ecef_to_lat_lon_angles (ox oy oz lat_deg lon_deg : double) :
  ecef_to_lat_lon m ox oy oz = Ok (lat_deg, lon_deg) ->
  exists lat_rad lon_rad,
    angle lat_rad /\ angle lon_rad /\
    lat_deg = math.degrees lat_rad /\ lon_deg = math.degrees lon_rad.
Proof.
  rewrite lat_lon_double_eq.
  destruct (pow_2 m ox) as [x2 |]; [| discriminate].
  destruct (pow_2 m oy) as [y2 |]; [| discriminate].
  intros H. injection H as <- <-.
  do 2 eexists. repeat split; apply (m_atan2_angle m Hm).
Qed.

(** What [ecef_to_sez] does after [ecef_to_lat_lon] has returned: on its
    angles [math.sin] and [math.cos] return, and the three sums are those
    of [rotation]. *)
Lemma sez_after_lat_lon (ox oy oz x y z lat_deg lon_deg : double) :
  ecef_to_lat_lon m ox oy oz = Ok (lat_deg, lon_deg) ->
  ecef_to_sez m ox oy oz x y z =
  Ok (rotation m (math.radians lat_deg) (math.radians lon_deg)
        (x - ox) (y - oy) (z - oz)).
Proof.
  intros E.
  destruct (ecef_to_lat_lon_angles _ _ _ _ _ E)
    as (lat_rad & lon_rad & Hlat & Hlon & -> & ->).
  unfold ecef_to_sez. rewrite E. cbn [bind].
  rewrite (math_sin_angle _ Hlat), (math_cos_angle _ Hlat).
  rewrite (math_sin_angle _ Hlon), (math_cos_angle _ Hlon).
  reflexivity.
Qed.

Lemma lat_lon_raises_overflow (ox oy oz : double) (e : exn) :
  ecef_to_lat_lon m ox oy oz = Raise e -> e = OverflowError.
Proof.
  rewrite lat_lon_double_eq.
  destruct (pow_2 m ox); [destruct (pow_2 m oy) |]; congruence.
Qed.

End LatLon.

(** ** The stand-in C library satisfies the assumptions *)

Lemma square_sign (a : double) :
  is_nan a = false -> (a * a <? 0) = false /\ is_nan (a * a) = false.
Proof.
  rewrite ltb_zero_SF, !is_nan_SF, mul_spec.
  destruct (Prim2SF a) as [[] | [] | | s ma ea]; intros H; try discriminate;
    try (split; reflexivity).
  unfold SF64mul, SFmul. rewrite xorb_nilpotent.
  pose proof (round_aux_sign false (Zpos (ma * ma)) (ea + ea) loc_Exact ltac:(lia)) as Hs.
  destruct (binary_round_aux _ _ _ _ _ _) as [s' | s' | | s' m' e']; cbn in Hs;
    subst; try contradiction; split; reflexivity.
Qed.

Ltac table_bound :=
  repeat match goal with
    | |- context [if ?c then _ else _] => destruct c
    end; reflexivity.

Lemma sample_libm_ok : libm_ok sample_libm.
Proof.
  split.
  - intros a Ha. cbn [c_pow sample_libm].
    change (2 =? 2) with true. cbv iota. apply square_sign. exact Ha.
  - intros y x _ _. cbn [c_atan2 sample_libm]. unfold lookup2, atan2_table.
    table_bound.
  - intros x _. cbn [c_sin sample_libm]. unfold lookup, sin_table. table_bound.
  - intros x _. cbn [c_cos sample_libm]. unfold lookup, cos_table. table_bound.
Qed.

(** ** The embedding on concrete inputs *)

(** The values a run of the script prints for these inputs. *)
Example sez_1_2_3 :
  ecef_to_sez sample_libm 1 2 3 4 5 6
  = Ok (-1.4342743312012731, -1.3416407864998736, 4.810702354423638).
Proof. vm_compute. reflexivity. Qed.

Example sez_equatorial :
  ecef_to_sez sample_libm 6378 0 0 6378 0 1 = Ok (1, 0, 0).
Proof. vm_compute. reflexivity. Qed.

(** A target radially above the observer, five units away: south is not
    zero. *)
Example sez_3_0_4 :
  ecef_to_sez sample_libm 3 0 4 6 0 8 = Ok (4.440892098500626e-16, 0, 5).
Proof. vm_compute. reflexivity. Qed.

(** An observer so close to the centre that the square of its [x] is
    rounded to zero: the latitude is 90 degrees, and a target radially
    above is seen to the north. *)
Example sez_underflow :
  ecef_to_sez sample_libm 3e-200 0 4e-200 3 0 4 = Ok (-2.9999999999999996, 0, 4).
Proof. vm_compute. reflexivity. Qed.

(** The squares of the SEZ components of the first example sum to less
    than the squares of the delta [(3, 3, 3)]. *)
Example sez_1_2_3_squares :
  let '(s, e, u) :=
    (-1.4342743312012731, -1.3416407864998736, 4.810702354423638) in
  s * s + e * e + u * u = 26.999999999999993 /\ 3 * 3 + 3 * 3 + 3 * 3 = 27.
Proof. split; vm_compute; reflexivity. Qed.

(** ** The transform and the observer's angles *)

(** C1, on binary64 numbers: whenever [ecef_to_lat_lon] returns
    [(lat_deg, lon_deg)], [ecef_to_sez] returns the rotation of section 4.2
    of the delta, evaluated in double arithmetic at the angles
    [radians(lat_deg)] and [radians(lon_deg)]; when [ecef_to_lat_lon]
    raises, which it does with [OverflowError] only, [ecef_to_sez] raises
    [OverflowError] too. *)
Theorem ecef_to_sez_double_rotation
  (m : libm) (Hm : libm_ok m) (ox oy oz x y z : double) :
  match ecef_to_lat_lon m ox oy oz with
  | Ok (lat_deg, lon_deg) =>
      ecef_to_sez m ox oy oz x y z =
      Ok (rotation m (math.radians lat_deg) (math.radians lon_deg)
            (x - ox) (y - oy) (z - oz))
  | Raise e => e = OverflowError /\ ecef_to_sez m ox oy oz x y z = Raise OverflowError
  end.
Proof.
  destruct (ecef_to_lat_lon m ox oy oz) as [[lat_deg lon_deg] | e] eqn:E.
  - exact (sez_after_lat_lon m Hm ox oy oz x y z lat_deg lon_deg E).
  - pose proof (lat_lon_raises_overflow m Hm ox oy oz e E) as ->.
    split; [reflexivity |].
    exact (sez_raises_with_lat_lon m ox oy oz x y z OverflowError E).
Qed.

Lemma ecef_to_sez_double_rotation_witness :
  ecef_to_sez sample_libm 1 2 3 4 5 6 =
  Ok (rotation sample_libm
        (math.radians 53.30077479951012) (math.radians 63.43494882292201)
        (4 - 1) (5 - 2) (6 - 3)).
Proof.
  exact (ecef_to_sez_double_rotation sample_libm sample_libm_ok 1 2 3 4 5 6).
Defined.

(** An observer on the x axis, 1e200 km out: [ecef_to_sez] returns no
    triple. *)
Lemma ecef_to_sez_overflow :
  ecef_to_sez sample_libm 1e200 0 0 1e200 0 1 = Raise OverflowError.
Proof. vm_compute. reflexivity. Qed.

(** C2, on binary64 numbers: [ecef_to_lat_lon] returns the latitude
    [degrees(atan2(oz, sqrt(ox ** 2 + oy ** 2)))] and the longitude
    [degrees(atan2(oy, ox))], in double arithmetic, whenever neither square
    overflows, and raises [OverflowError] when one does; it raises nothing
    else.  On the polar axis the longitude follows the signs of the zeros:
    0.0 for [ox = oy = +0.0], -0.0 for [ox = +0.0, oy = -0.0], 180.0 for
    [ox = -0.0, oy = +0.0] and -180.0 for [ox = oy = -0.0]. *)
Theorem ecef_to_lat_lon_double (m : libm) (Hm : libm_ok m) (ox oy oz : double) :
  ecef_to_lat_lon m ox oy oz =
    match pow_2 m ox, pow_2 m oy with
    | Ok x2, Ok y2 =>
        Ok (math.degrees (m_atan2 m oz (PrimFloat.sqrt (x2 + y2))),
            math.degrees (m_atan2 m oy ox))
    | _, _ => Raise OverflowError
    end /\
  (exists lat_deg, ecef_to_lat_lon m 0 0 oz = Ok (lat_deg, 0)) /\
  (exists lat_deg, ecef_to_lat_lon m 0 (-0) oz = Ok (lat_deg, -0)) /\
  (exists lat_deg, ecef_to_lat_lon m (-0) 0 oz = Ok (lat_deg, 180)) /\
  (exists lat_deg, ecef_to_lat_lon m (-0) (-0) oz = Ok (lat_deg, -180)).
Proof.
  rewrite !(lat_lon_double_eq m Hm).
  split; [reflexivity |].
  repeat split; eexists; reflexivity.
Qed.

Lemma ecef_to_lat_lon_double_witness :
  ecef_to_lat_lon sample_libm 1 2 3 = Ok (53.30077479951012, 63.43494882292201).
Proof.
  exact (proj1 (ecef_to_lat_lon_double sample_libm sample_libm_ok 1 2 3)).
Defined.

(** A finite observer for which [ecef_to_lat_lon] raises, and an observer
    on the polar axis whose longitude is not 0. *)
Lemma ecef_to_lat_lon_overflow :
  ecef_to_lat_lon sample_libm 1e200 0 1 = Raise OverflowError /\
  ecef_to_lat_lon sample_libm (-0) 0 5 = Ok (90, 180).
Proof. split; vm_compute; reflexivity. Qed.

(** ** A target at the observer *)

Lemma finite_not_nan (x : double) : is_finite x = true -> is_nan x = false.
Proof. rewrite is_finite_SF, is_nan_SF. now destruct (Prim2SF x). Qed.

Lemma sqrt_not_nan (x : double) :
  (x <? 0) = false -> is_nan x = false -> is_nan (PrimFloat.sqrt x) = false.
Proof.
  intros Hx Hn. destruct (sqrt_not_neg x Hx) as [H _].
  destruct (is_nan (PrimFloat.sqrt x)); [| reflexivity].
  rewrite (H eq_refl) in Hn. discriminate.
Qed.

(** The rotation of the zero delta is a triple of zeros. *)
Lemma rotation_zero (m : libm) (phi lam : double) :
  below 1 (c_sin m phi) -> below 1 (c_cos m phi) ->
  below 1 (c_sin m lam) -> below 1 (c_cos m lam) ->
  let '(s, e, u) := rotation m phi lam 0 0 0 in
  (s =? 0) = true /\ (e =? 0) = true /\ (u =? 0) = true.
Proof.
  intros Hsp Hcp Hsl Hcl. unfold rotation. cbv zeta.
  assert (Hprod : forall a b, below 1 a -> below 1 b -> (a * b * 0 =? 0) = true).
  { intros a b Ha Hb.
    eapply mul_zero_r; [apply (below_mul 1 1 a b Ha Hb); lia | reflexivity]. }
  assert (Hone : forall a, below 1 a -> (a * 0 =? 0) = true).
  { intros a Ha. eapply mul_zero_r; [exact Ha | reflexivity]. }
  repeat split.
  - apply add_zero; [apply sub_zero |]; auto using below_opp.
  - apply add_zero; auto using below_opp.
  - apply add_zero; [apply add_zero |]; auto.
Qed.

Section ZeroOffset.
Variable m : libm.
Hypothesis Hm : libm_ok m.

Lemma ecef_to_lat_lon_finite_angles (ox oy oz lat_deg lon_deg : double) :
  is_finite ox = true -> is_finite oy = true -> is_finite oz = true ->
  ecef_to_lat_lon m ox oy oz = Ok (lat_deg, lon_deg) ->
  below 6 (math.radians lat_deg) /\ below 6 (math.radians lon_deg).
Proof.
  intros Hox Hoy Hoz. rewrite (lat_lon_double_eq m Hm).
  apply finite_not_nan in Hox, Hoy, Hoz.
  destruct (pow_2_cases m Hm ox) as [-> | (x2 & -> & Hx2 & Hnx)]; [discriminate |].
  destruct (pow_2_cases m Hm oy) as [-> | (y2 & -> & Hy2 & Hny)]; [discriminate |].
  intros H. injection H as <- <-.
  split; apply radians_degrees_below, (m_atan2_not_nan m Hm); auto.
  apply sqrt_not_nan; [apply add_not_neg | apply add_not_nan]; auto.
Qed.

(** C3, on binary64 numbers: for every finite observer O for which
    [ecef_to_lat_lon] returns, [ecef_to_sez] applied to O and the target O
    returns a triple whose south, east and zenith components are all zero
    (each compares equal to 0). *)
Theorem ecef_to_sez_zero_offset_double (ox oy oz lat_deg lon_deg : double) :
  is_finite ox = true -> is_finite oy = true -> is_finite oz = true ->
  ecef_to_lat_lon m ox oy oz = Ok (lat_deg, lon_deg) ->
  exists s e u,
    ecef_to_sez m ox oy oz ox oy oz = Ok (s, e, u) /\
    (s =? 0) = true /\ (e =? 0) = true /\ (u =? 0) = true.
Proof.
  intros Hox Hoy Hoz E.
  pose proof (sez_after_lat_lon m Hm ox oy oz ox oy oz lat_deg lon_deg E) as Hs.
  destruct (ecef_to_lat_lon_finite_angles _ _ _ _ _ Hox Hoy Hoz E) as [Hlat Hlon].
  rewrite !sub_self in Hs by assumption.
  pose proof (rotation_zero m (math.radians lat_deg) (math.radians lon_deg)
                (leb_abs_one _ (sin_bound m Hm _ (below_finite _ _ Hlat)))
                (leb_abs_one _ (cos_bound m Hm _ (below_finite _ _ Hlat)))
                (leb_abs_one _ (sin_bound m Hm _ (below_finite _ _ Hlon)))
                (leb_abs_one _ (cos_bound m Hm _ (below_finite _ _ Hlon)))) as Hz.
  destruct (rotation m _ _ 0 0 0) as [[s e] u].
  exists s, e, u. split; [exact Hs | exact Hz].
Qed.
End ZeroOffset.

Lemma ecef_to_sez_zero_offset_double_witness :
  exists s e u,
    ecef_to_sez sample_libm 1 2 3 1 2 3 = Ok (s, e, u) /\
    (s =? 0) = true /\ (e =? 0) = true /\ (u =? 0) = true.
Proof.
  apply (ecef_to_sez_zero_offset_double sample_libm sample_libm_ok 1 2 3
           53.30077479951012 63.43494882292201); reflexivity.
Defined.

(** An observer for which [ecef_to_sez] of the observer itself returns no
    triple. *)
Lemma ecef_to_sez_zero_offset_overflow :
  ecef_to_sez sample_libm 1e200 0 0 1e200 0 0 = Raise OverflowError.
Proof. vm_compute. reflexivity. Qed.

(** ** The fused variant *)

Lemma ecef_to_lat_lon_observer_angles (m : libm) (ox oy oz : double) :
  ecef_to_lat_lon m ox oy oz =
  bind (observer_angles m ox oy oz)
       (fun '(lat_rad, lon_rad) => ret (math.degrees lat_rad, math.degrees lon_rad)).
Proof.
  unfold ecef_to_lat_lon, observer_angles.
  destruct (math.atan2 m oy ox); [cbn [bind] | reflexivity].
  destruct (pow_2 m ox); [cbn [bind] | reflexivity].
  destruct (pow_2 m oy); [cbn [bind] | reflexivity].
  destruct (math.sqrt _); [cbn [bind] | reflexivity].
  destruct (math.atan2 m oz _); reflexivity.
Qed.

(** C8, on binary64 numbers: when the derivation of the observer's angles raises,
    [ecef_to_sez] and the fused variant raise the same exception.
    Otherwise, with [(lat_rad, lon_rad)] the derived angles, the fused
    variant rotates at [lat_rad] and [lon_rad], and [ecef_to_sez] rotates at
    [radians(degrees(lat_rad))] and [radians(degrees(lon_rad))]: the two
    return the same whenever going to degrees and back gives both angles
    back exactly. *)
Theorem ecef_to_sez_fused_double (m : libm) (ox oy oz x y z : double) :
  match observer_angles m ox oy oz with
  | Ok (lat_rad, lon_rad) =>
      ecef_to_sez_fused m ox oy oz x y z =
        rotate m lat_rad lon_rad (x - ox) (y - oy) (z - oz) /\
      ecef_to_sez m ox oy oz x y z =
        rotate m (math.radians (math.degrees lat_rad))
                 (math.radians (math.degrees lon_rad))
                 (x - ox) (y - oy) (z - oz) /\
      (math.radians (math.degrees lat_rad) = lat_rad ->
       math.radians (math.degrees lon_rad) = lon_rad ->
       ecef_to_sez_fused m ox oy oz x y z = ecef_to_sez m ox oy oz x y z)
  | Raise e =>
      ecef_to_sez m ox oy oz x y z = Raise e /\
      ecef_to_sez_fused m ox oy oz x y z = Raise e
  end.
Proof.
  unfold ecef_to_sez, ecef_to_sez_fused.
  rewrite ecef_to_lat_lon_observer_angles.
  destruct (observer_angles m ox oy oz) as [[lat_rad lon_rad] | e]; cbn [bind ret].
  - split; [reflexivity |]. split; [reflexivity |].
    intros -> ->. reflexivity.
  - split; reflexivity.
Qed.

Lemma ecef_to_sez_fused_double_witness :
  ecef_to_sez_fused sample_libm 6378 0 0 6378 0 1
  = ecef_to_sez sample_libm 6378 0 0 6378 0 1.
Proof.
  pose proof (ecef_to_sez_fused_double sample_libm 6378 0 0 6378 0 1) as H.
  change (observer_angles sample_libm 6378 0 0)
    with (@Ok (double * double) (0, 0)) in H.
  destruct H as (_ & _ & H). apply H; reflexivity.
Defined.

(** At the observer (1, 2, 3) the latitude 0.9302740141154721 comes back
    from degrees as 0.9302740141154722, and the two variants differ in the
    last digit of south and zenith. *)
Lemma ecef_to_sez_fused_differs :
  ecef_to_sez sample_libm 1 2 3 4 5 6
    = Ok (-1.4342743312012731, -1.3416407864998736, 4.810702354423638) /\
  ecef_to_sez_fused sample_libm 1 2 3 4 5 6
    = Ok (-1.434274331201273, -1.3416407864998736, 4.810702354423639).
Proof. split; vm_compute; reflexivity. Qed.

(** ** Runs of the script *)

(** The transform raises nothing but [OverflowError] and [ValueError]. *)
Lemma math_1_raises (f : double -> double) (b : bool) (x : double) (e : exn) :
  math_1 f b x = Raise e -> e = OverflowError \/ e = ValueError.
Proof.
  unfold math_1.
  destruct (_ && _); [intros H; injection H as <-; auto |].
  destruct (_ && _); [| discriminate].
  intros H; injection H as <-. destruct b; auto.
Qed.

Lemma math_2_raises (f : double -> double -> double) (x y : double) (e : exn) :
  math_2 f x y = Raise e -> e = OverflowError \/ e = ValueError.
Proof.
  unfold math_2.
  destruct (is_nan _).
  - destruct (_ && _); [intros H; injection H as <-; auto | discriminate].
  - destruct (is_infinity _); [| discriminate].
    destruct (_ && _); [intros H; injection H as <-; auto | discriminate].
Qed.

Lemma pow_2_raises (m : libm) (v : double) (e : exn) :
  pow_2 m v = Raise e -> e = OverflowError.
Proof.
  unfold pow_2.
  repeat match goal with
    | |- context [if ?c then _ else _] => destruct c
    end; intros H; try discriminate; now injection H as <-.
Qed.

Ltac raise_step :=
  match goal with
  | |- bind ?c _ = Raise _ -> _ =>
      let E := fresh "E" in
      destruct c eqn:E; cbn [bind];
      [| intros H; injection H as <-;
         first [ apply math_2_raises in E; exact E
               | apply math_1_raises in E; exact E
               | apply pow_2_raises in E; auto ] ]
  end.

Lemma ecef_to_lat_lon_raises (m : libm) (ox oy oz : double) (e : exn) :
  ecef_to_lat_lon m ox oy oz = Raise e -> e = OverflowError \/ e = ValueError.
Proof.
  unfold ecef_to_lat_lon, math.atan2, math.sqrt.
  do 5 raise_step. discriminate.
Qed.

Lemma ecef_to_sez_raises (m : libm) (ox oy oz x y z : double) (e : exn) :
  ecef_to_sez m ox oy oz x y z = Raise e -> e = OverflowError \/ e = ValueError.
Proof.
  unfold ecef_to_sez.
  destruct (ecef_to_lat_lon m ox oy oz) as [[lat lon] |] eqn:E; cbn [bind].
  - unfold math.sin, math.cos. do 4 raise_step. discriminate.
  - intros H. injection H as <-. exact (ecef_to_lat_lon_raises _ _ _ _ _ E).
Qed.

Section DoubleRuns.
Variable m : libm.
Variable float_literal : string -> option double.

Lemma main_usage_double (argv : list string) :
  length argv <> 7%nat ->
  main m float_literal argv [] = (Raise (SystemExit 1), [Stdout (Text usage)]).
Proof.
  intros Hlen. unfold main.
  apply Nat.eqb_neq in Hlen. rewrite Hlen. reflexivity.
Qed.

Lemma main_parsed_double (p a1 a2 a3 a4 a5 a6 : string) (v1 v2 v3 v4 v5 v6 : double) :
  float_literal a1 = Some v1 -> float_literal a2 = Some v2 ->
  float_literal a3 = Some v3 -> float_literal a4 = Some v4 ->
  float_literal a5 = Some v5 -> float_literal a6 = Some v6 ->
  main m float_literal [p; a1; a2; a3; a4; a5; a6] [] =
  let called :=
    [CallFloat a1; CallFloat a2; CallFloat a3;
     CallFloat a4; CallFloat a5; CallFloat a6;
     CallEcefToSez v1 v2 v3 v4 v5 v6] in
  match ecef_to_sez m v1 v2 v3 v4 v5 v6 with
  | Ok (s, e, u) =>
      (Ok tt, called ++ [Stdout (FloatRepr s); Stdout (FloatRepr e);
                         Stdout (FloatRepr u)])
  | Raise ex => (Raise ex, called)
  end.
Proof.
  intros H1 H2 H3 H4 H5 H6.
  unfold main, io_bind, float, getitem, lift, emit, print_float, io_ret. cbn.
  rewrite H1, H2, H3, H4, H5, H6.
  destruct (ecef_to_sez m v1 v2 v3 v4 v5 v6) as [[[s e] u] | ex]; reflexivity.
Qed.

(** A run on six literals whose transform returns. *)
Lemma run_parsed_returns
  (p a1 a2 a3 a4 a5 a6 : string) (v1 v2 v3 v4 v5 v6 s e u : double) :
  float_literal a1 = Some v1 -> float_literal a2 = Some v2 ->
  float_literal a3 = Some v3 -> float_literal a4 = Some v4 ->
  float_literal a5 = Some v5 -> float_literal a6 = Some v6 ->
  ecef_to_sez m v1 v2 v3 v4 v5 v6 = Ok (s, e, u) ->
  run m float_literal [p; a1; a2; a3; a4; a5; a6] =
    Outcome 0 [FloatRepr s; FloatRepr e; FloatRepr u] None /\
  run_trace m float_literal [p; a1; a2; a3; a4; a5; a6] =
    [CallFloat a1; CallFloat a2; CallFloat a3;
     CallFloat a4; CallFloat a5; CallFloat a6;
     CallEcefToSez v1 v2 v3 v4 v5 v6;
     Stdout (FloatRepr s); Stdout (FloatRepr e); Stdout (FloatRepr u)].
Proof.
  intros H1 H2 H3 H4 H5 H6 E. unfold run, run_trace.
  rewrite (main_parsed_double p _ _ _ _ _ _ _ _ _ _ _ _ H1 H2 H3 H4 H5 H6).
  cbv zeta. rewrite E. split; reflexivity.
Qed.

(** A run on six literals whose transform raises. *)
Lemma run_parsed_raises
  (p a1 a2 a3 a4 a5 a6 : string) (v1 v2 v3 v4 v5 v6 : double) (ex : exn) :
  float_literal a1 = Some v1 -> float_literal a2 = Some v2 ->
  float_literal a3 = Some v3 -> float_literal a4 = Some v4 ->
  float_literal a5 = Some v5 -> float_literal a6 = Some v6 ->
  ecef_to_sez m v1 v2 v3 v4 v5 v6 = Raise ex ->
  (ex = OverflowError \/ ex = ValueError) /\
  run m float_literal [p; a1; a2; a3; a4; a5; a6] = Outcome 1 [] (Some ex) /\
  run_trace m float_literal [p; a1; a2; a3; a4; a5; a6] =
    [CallFloat a1; CallFloat a2; CallFloat a3;
     CallFloat a4; CallFloat a5; CallFloat a6;
     CallEcefToSez v1 v2 v3 v4 v5 v6].
Proof.
  intros H1 H2 H3 H4 H5 H6 E. unfold run, run_trace.
  rewrite (main_parsed_double p _ _ _ _ _ _ _ _ _ _ _ _ H1 H2 H3 H4 H5 H6).
  cbv zeta. rewrite E.
  destruct (ecef_to_sez_raises _ _ _ _ _ _ _ _ E) as [-> | ->];
    (split; [auto | split; reflexivity]).
Qed.
End DoubleRuns.

Ltac parse_error_run_double :=
  right; split;
  [ repeat (first [apply Exists_cons_hd; assumption | apply Exists_cons_tl])
  | unfold run, run_trace, main, io_bind, float, getitem, lift, emit; cbn;
    repeat match goal with
      | E : _ = _ :> option double |- _ => rewrite E; clear E
      end;
    split; reflexivity ].

Section DoubleRunShapes.
Variable m : libm.
Variable float_literal : string -> option double.

Lemma run_usage_double (argv : list string) :
  length argv <> 7%nat ->
  run m float_literal argv = Outcome 1 [Text usage] None /\
  run_trace m float_literal argv = [Stdout (Text usage)].
Proof.
  intros Hlen. unfold run, run_trace.
  rewrite (main_usage_double m float_literal argv Hlen). split; reflexivity.
Qed.

Lemma run_seven_cases_double (p a1 a2 a3 a4 a5 a6 : string) :
  (exists v1 v2 v3 v4 v5 v6,
     map float_literal [a1; a2; a3; a4; a5; a6]
     = [Some v1; Some v2; Some v3; Some v4; Some v5; Some v6]) \/
  (Exists (fun a => float_literal a = None) [a1; a2; a3; a4; a5; a6] /\
   run m float_literal [p; a1; a2; a3; a4; a5; a6] = Outcome 1 [] (Some ValueError) /\
   existsb calls_ecef_to_sez (run_trace m float_literal [p; a1; a2; a3; a4; a5; a6])
   = false).
Proof.
  destruct (float_literal a1) as [v1 |] eqn:E1;
  [destruct (float_literal a2) as [v2 |] eqn:E2;
   [destruct (float_literal a3) as [v3 |] eqn:E3;
    [destruct (float_literal a4) as [v4 |] eqn:E4;
     [destruct (float_literal a5) as [v5 |] eqn:E5;
      [destruct (float_literal a6) as [v6 |] eqn:E6 |] |] |] |] |].
  2-7: parse_error_run_double.
  left. exists v1, v2, v3, v4, v5, v6. cbn [map].
  now rewrite E1, E2, E3, E4, E5, E6.
Qed.

Lemma map_six (a1 a2 a3 a4 a5 a6 : string) (v1 v2 v3 v4 v5 v6 : double) :
  map float_literal [a1; a2; a3; a4; a5; a6]
  = [Some v1; Some v2; Some v3; Some v4; Some v5; Some v6] ->
  float_literal a1 = Some v1 /\ float_literal a2 = Some v2 /\
  float_literal a3 = Some v3 /\ float_literal a4 = Some v4 /\
  float_literal a5 = Some v5 /\ float_literal a6 = Some v6.
Proof. cbn [map]. intros H. injection H as -> -> -> -> -> ->. repeat split. Qed.

Lemma all_literals_not_invalid (args : list string) (vs : list double) :
  map float_literal args = map Some vs ->
  Exists (fun a => float_literal a = None) args -> False.
Proof.
  revert vs. induction args as [| a args IH]; intros vs Hmap Hex.
  - inversion Hex.
  - destruct vs as [| v vs]; [discriminate |].
    cbn [map] in Hmap. injection Hmap as Ha Hrest.
    inversion Hex as [? ? Hbad | ? ? Hlater]; subst; [congruence | eauto].
Qed.

(** X15: the exit status is 0 or 1, and it is 0 exactly when there are six
    arguments, all of them literals, on whose values [ecef_to_sez]
    returns. *)
Theorem run_exit_status_double (argv : list string) :
  (exit_status (run m float_literal argv) = 0%Z \/
   exit_status (run m float_literal argv) = 1%Z) /\
  (exit_status (run m float_literal argv) = 0%Z <->
   length argv = 7%nat /\
   exists v1 v2 v3 v4 v5 v6 s e u,
     map float_literal (tl argv)
     = [Some v1; Some v2; Some v3; Some v4; Some v5; Some v6] /\
     ecef_to_sez m v1 v2 v3 v4 v5 v6 = Ok (s, e, u)).
Proof.
  destruct (Nat.eq_dec (length argv) 7) as [Hlen | Hlen].
  - seven argv Hlen. cbn [tl].
    destruct (run_seven_cases_double p a1 a2 a3 a4 a5 a6)
      as [(v1 & v2 & v3 & v4 & v5 & v6 & Hmap) | (Hsome & Hrun & _)].
    + destruct (map_six _ _ _ _ _ _ _ _ _ _ _ _ Hmap) as (H1 & H2 & H3 & H4 & H5 & H6).
      destruct (ecef_to_sez m v1 v2 v3 v4 v5 v6) as [[[s e] u] | ex] eqn:E.
      * destruct (run_parsed_returns m float_literal p _ _ _ _ _ _ _ _ _ _ _ _ _ _ _
                    H1 H2 H3 H4 H5 H6 E) as [-> _]. cbn.
        split; [left; reflexivity |]. split; [| reflexivity].
        intros _. split; [reflexivity |].
        exists v1, v2, v3, v4, v5, v6, s, e, u. split; [exact Hmap | exact E].
      * destruct (run_parsed_raises m float_literal p _ _ _ _ _ _ _ _ _ _ _ _ _
                    H1 H2 H3 H4 H5 H6 E) as (_ & -> & _). cbn.
        split; [right; reflexivity |]. split; [discriminate |].
        intros (_ & w1 & w2 & w3 & w4 & w5 & w6 & s & e & u & Hmap' & E').
        cbn [map] in Hmap'. injection Hmap' as G1 G2 G3 G4 G5 G6. congruence.
    + rewrite Hrun. cbn.
      split; [right; reflexivity |]. split; [discriminate |].
      intros (_ & w1 & w2 & w3 & w4 & w5 & w6 & s & e & u & Hmap' & _).
      exfalso.
      exact (all_literals_not_invalid [a1; a2; a3; a4; a5; a6]
               [w1; w2; w3; w4; w5; w6] Hmap' Hsome).
  - destruct (run_usage_double argv Hlen) as (-> & _). cbn.
    split; [right; reflexivity |].
    split; [discriminate | intros [H _]; contradiction].
Qed.

(** X16: a run shows a traceback only for [ValueError] or
    [OverflowError], and then there are six arguments, nothing was printed
    and the exit status is 1. *)
Theorem run_traceback_double (argv : list string) :
  traceback (run m float_literal argv) = None \/
  ((traceback (run m float_literal argv) = Some ValueError \/
    traceback (run m float_literal argv) = Some OverflowError) /\
   length argv = 7%nat /\
   stdout (run m float_literal argv) = [] /\
   exit_status (run m float_literal argv) = 1%Z).
Proof.
  destruct (Nat.eq_dec (length argv) 7) as [Hlen | Hlen].
  - seven argv Hlen.
    destruct (run_seven_cases_double p a1 a2 a3 a4 a5 a6)
      as [(v1 & v2 & v3 & v4 & v5 & v6 & Hmap) | (Hsome & Hrun & _)].
    + destruct (map_six _ _ _ _ _ _ _ _ _ _ _ _ Hmap) as (H1 & H2 & H3 & H4 & H5 & H6).
      destruct (ecef_to_sez m v1 v2 v3 v4 v5 v6) as [[[s e] u] | ex] eqn:E.
      * destruct (run_parsed_returns m float_literal p _ _ _ _ _ _ _ _ _ _ _ _ _ _ _
                    H1 H2 H3 H4 H5 H6 E) as [-> _]. left; reflexivity.
      * destruct (run_parsed_raises m float_literal p _ _ _ _ _ _ _ _ _ _ _ _ _
                    H1 H2 H3 H4 H5 H6 E) as (Hex & -> & _). right. cbn.
        destruct Hex as [-> | ->]; repeat split; auto.
    + rewrite Hrun. right. cbn. repeat split; auto.
  - destruct (run_usage_double argv Hlen) as (-> & _). left; reflexivity.
Qed.

(** X18: [ecef_to_sez] is called exactly in the runs with six arguments
    that are all literals; every run that exits with status 0 is one of
    them. *)
Theorem run_calls_transform_double (argv : list string) :
  (existsb calls_ecef_to_sez (run_trace m float_literal argv) = true <->
   length argv = 7%nat /\ Forall (fun a => float_literal a <> None) (tl argv)) /\
  (exit_status (run m float_literal argv) = 0%Z ->
   existsb calls_ecef_to_sez (run_trace m float_literal argv) = true).
Proof.
  destruct (Nat.eq_dec (length argv) 7) as [Hlen | Hlen].
  - seven argv Hlen. cbn [tl].
    destruct (run_seven_cases_double p a1 a2 a3 a4 a5 a6)
      as [(v1 & v2 & v3 & v4 & v5 & v6 & Hmap) | (Hsome & Hrun & Hcall)].
    + destruct (map_six _ _ _ _ _ _ _ _ _ _ _ _ Hmap) as (H1 & H2 & H3 & H4 & H5 & H6).
      assert (Hall : Forall (fun a => float_literal a <> None) [a1; a2; a3; a4; a5; a6])
        by (repeat constructor; congruence).
      assert (Hc : existsb calls_ecef_to_sez
                     (run_trace m float_literal [p; a1; a2; a3; a4; a5; a6]) = true).
      { destruct (ecef_to_sez m v1 v2 v3 v4 v5 v6) as [[[s e] u] | ex] eqn:E.
        - destruct (run_parsed_returns m float_literal p _ _ _ _ _ _ _ _ _ _ _ _ _ _ _
                      H1 H2 H3 H4 H5 H6 E) as [_ ->]. reflexivity.
        - destruct (run_parsed_raises m float_literal p _ _ _ _ _ _ _ _ _ _ _ _ _
                      H1 H2 H3 H4 H5 H6 E) as (_ & _ & ->). reflexivity. }
      split; [split; [intros _; split; [reflexivity | exact Hall] | intros _; exact Hc]
             | intros _; exact Hc].
    + rewrite Hcall, Hrun. cbn. split; [| discriminate].
      split; [discriminate |]. intros [_ Hall]. exfalso.
      apply Exists_exists in Hsome as (a & Hin & Hbad).
      rewrite Forall_forall in Hall. exact (Hall a Hin Hbad).
  - destruct (run_usage_double argv Hlen) as (-> & ->). cbn.
    split; [| discriminate].
    split; [discriminate | intros [H _]; contradiction].
Qed.
End DoubleRunShapes.

(** X14: with six arguments that are all literals, the script reads them
    left to right and calls [ecef_to_sez] once on their values in that
    order.  When [ecef_to_sez] returns, the run prints the three components,
    south, east, zenith, one per line, and exits with status 0; when it
    raises, which it does with [OverflowError] or [ValueError] only, the
    run prints nothing and ends with that exception's traceback and
    status 1. *)
Theorem run_valid_arguments_double
  (m : libm) (float_literal : string -> option double)
  (p a1 a2 a3 a4 a5 a6 : string) (v1 v2 v3 v4 v5 v6 : double) :
  float_literal a1 = Some v1 -> float_literal a2 = Some v2 ->
  float_literal a3 = Some v3 -> float_literal a4 = Some v4 ->
  float_literal a5 = Some v5 -> float_literal a6 = Some v6 ->
  let argv := [p; a1; a2; a3; a4; a5; a6] in
  let called :=
    [CallFloat a1; CallFloat a2; CallFloat a3;
     CallFloat a4; CallFloat a5; CallFloat a6;
     CallEcefToSez v1 v2 v3 v4 v5 v6] in
  match ecef_to_sez m v1 v2 v3 v4 v5 v6 with
  | Ok (s, e, u) =>
      run m float_literal argv =
        Outcome 0 [FloatRepr s; FloatRepr e; FloatRepr u] None /\
      run_trace m float_literal argv =
        called ++ [Stdout (FloatRepr s); Stdout (FloatRepr e); Stdout (FloatRepr u)]
  | Raise ex =>
      (ex = OverflowError \/ ex = ValueError) /\
      run m float_literal argv = Outcome 1 [] (Some ex) /\
      run_trace m float_literal argv = called
  end.
Proof.
  intros H1 H2 H3 H4 H5 H6. cbv zeta.
  destruct (ecef_to_sez m v1 v2 v3 v4 v5 v6) as [[[s e] u] | ex] eqn:E.
  - exact (run_parsed_returns m float_literal p _ _ _ _ _ _ _ _ _ _ _ _ _ _ _
             H1 H2 H3 H4 H5 H6 E).
  - exact (run_parsed_raises m float_literal p _ _ _ _ _ _ _ _ _ _ _ _ _
             H1 H2 H3 H4 H5 H6 E).
Qed.

Lemma run_valid_arguments_double_witness :
  run sample_libm digits_double
    ["ecef_to_sez.py"; "1"; "2"; "3"; "4"; "5"; "6"]%string =
    Outcome 0 [FloatRepr (-1.4342743312012731);
               FloatRepr (-1.3416407864998736);
               FloatRepr 4.810702354423638] None /\
  run_trace sample_libm digits_double
    ["ecef_to_sez.py"; "1"; "2"; "3"; "4"; "5"; "6"]%string =
    [CallFloat "1"; CallFloat "2"; CallFloat "3";
     CallFloat "4"; CallFloat "5"; CallFloat "6";
     CallEcefToSez 1 2 3 4 5 6;
     Stdout (FloatRepr (-1.4342743312012731));
     Stdout (FloatRepr (-1.3416407864998736));
     Stdout (FloatRepr 4.810702354423638)].
Proof.
  exact (run_valid_arguments_double sample_libm digits_double
           "ecef_to_sez.py" "1" "2" "3" "4" "5" "6" 1 2 3 4 5 6
           eq_refl eq_refl eq_refl eq_refl eq_refl eq_refl).
Defined.

(** ** The east component *)

(** X20: on doubles too the z coordinates do not reach the east component:
    two calls that differ only in the observer's and the target's z return
    the same east component, or raise the same exception. *)
Theorem east_independent_of_z_double
  (m : libm) (Hm : libm_ok m) (ox oy oz1 oz2 x y z1 z2 : double) :
  sez_east (ecef_to_sez m ox oy oz1 x y z1) = sez_east (ecef_to_sez m ox oy oz2 x y z2).
Proof.
  pose proof (lat_lon_double_eq m Hm ox oy oz1) as E1.
  pose proof (lat_lon_double_eq m Hm ox oy oz2) as E2.
  destruct (pow_2 m ox) as [x2 |]; [destruct (pow_2 m oy) as [y2 |] |].
  - rewrite (sez_after_lat_lon m Hm _ _ _ x y z1 _ _ E1).
    rewrite (sez_after_lat_lon m Hm _ _ _ x y z2 _ _ E2).
    reflexivity.
  - rewrite (sez_raises_with_lat_lon m _ _ _ x y z1 _ E1).
    rewrite (sez_raises_with_lat_lon m _ _ _ x y z2 _ E2).
    reflexivity.
  - rewrite (sez_raises_with_lat_lon m _ _ _ x y z1 _ E1).
    rewrite (sez_raises_with_lat_lon m _ _ _ x y z2 _ E2).
    reflexivity.
Qed.

Lemma east_independent_of_z_double_witness :
  sez_east (ecef_to_sez sample_libm 1 2 3 4 5 6)
  = sez_east (ecef_to_sez sample_libm 1 2 0 4 5 9).
Proof.
  exact (east_independent_of_z_double sample_libm sample_libm_ok 1 2 3 0 4 5 6 9).
Defined.
